(** * PrairieView metadata reader ([element_interface/prairieviewreader.py])

    A shallow embedding of [get_pv_metadata] and the properties of its four
    stages: locating the metadata file, reading the scalar fields, resolving
    the Z positions of the imaged planes, and assembling the returned dict.

    Conventions of the embedding.
    - An XML document is the element tree [ET.parse] builds from a
      well-formed file: tag, attribute dict and children (texts and tails
      are never read by the reader, so they are left out).  A file that
      [ET.parse] cannot read is the exception it raises.
    - [findall]/[find]/[iterfind] follow [xml.etree.ElementPath]: a path is
      compiled to a list of selectors, each mapping the current result list
      to the next, duplicates kept, document order.
    - A Python exception is a value of [exn]; a computation that may raise
      has type [result A].  Statements are evaluated in source order, so the
      first exception raised in the source is the one returned here.
    - Python [float] is IEEE binary64, i.e. the primitive [float].
    - What the interpreter and its libraries do with a text ([int(s)],
      [float(s)], [np.float64(x)], [strptime]) is a field of [PyRuntime];
      every theorem holds for every runtime, and [sample_runtime] is one
      concrete runtime on which the sample documents are evaluated.
    - The directory is given by [FileSystem]: the parent of a path and,
      for each XML file a directory holds, in the order [glob] yields them,
      what parsing it gives: a tree or an exception. *)

From Stdlib Require Import ZArith Floats Ascii String List Lia.
From stdpp Require Import gmap strings list.

Local Open Scope string_scope.
Local Open Scope Z_scope.
Local Open Scope list_scope.
Local Set Warnings "-register-all".

(** ** Exceptions and the error monad *)

Inductive exn : Type :=
| FileNotFoundError (msg : string)
| AssertionError (msg : string)
| AttributeError
| IndexError
| TypeError
| ValueError
| ZeroDivisionError
| OverflowError
| SyntaxError
| KeyError
| ParseError
| OSError.

Inductive result (A : Type) : Type :=
| Ok (a : A)
| Raise (e : exn).
Arguments Ok {A} a.
Arguments Raise {A} e.

#[global] Instance result_ret : MRet result := λ A a, Ok a.
#[global] Instance result_bind : MBind result := λ A B f m,
  match m with Ok a => f a | Raise e => Raise e end.
#[global] Instance result_fmap : FMap result := λ A B f m,
  match m with Ok a => Ok (f a) | Raise e => Raise e end.

(** ** Element trees *)

Inductive Element : Type :=
  Elem { tag : string; attrib : gmap string string; children : list Element }.

(** [elem.get(key)], also written [elem.attrib.get(key)]. *)
Definition get (elem : Element) (key : string) : option string := attrib elem !! key.

(** [elem.iter()]: the element, then its subtree, in document order. *)
Fixpoint iter (elem : Element) : list Element :=
  match elem with
  | Elem _ _ cs =>
      elem :: (fix subtrees (l : list Element) : list Element :=
                 match l with
                 | [] => []
                 | c :: l' => iter c ++ subtrees l'
                 end) cs
  end.

(** The elements [e] of [elem.iter(tag)] with [e is not elem]. *)
Definition descendants (t : string) (elem : Element) : list Element :=
  filter (λ e, tag e = t) (tail (iter elem)).

(** ** ElementPath selectors

    One constructor per [prepare_*] function the reader's paths reach:
    [.] (self), [//tag] (descendant), [tag] (child), [*] (star),
    [[@key]] and [[@key='value']] (predicates). *)

Inductive selector : Type :=
| sel_self
| sel_descendant (t : string)
| sel_child (t : string)
| sel_star
| sel_has_attr (key : string)
| sel_attr_eq (key value : string).

Definition select (s : selector) (context : list Element) : list Element :=
  match s with
  | sel_self => context
  | sel_descendant t => elem ← context; descendants t elem
  | sel_child t => elem ← context; filter (λ e, tag e = t) (children elem)
  | sel_star => elem ← context; children elem
  | sel_has_attr key => filter (λ elem, get elem key ≠ None) context
  | sel_attr_eq key value => filter (λ elem, get elem key = Some value) context
  end.

Definition path : Type := list selector.

(** The loop [for select in selector: result = select(context, result)]. *)
Definition run_path (p : path) (context : list Element) : list Element :=
  foldl (λ context s, select s context) context p.

Definition findall (elem : Element) (p : path) : list Element :=
  run_path p [elem].

(** [find] is [next(iterfind(...), None)]. *)
Definition find (elem : Element) (p : path) : option Element :=
  head (findall elem p).

(** ** The paths of the reader

    Each path is the selector list ElementPath compiles the quoted source
    text to.  A [/] between steps is skipped by the compiler, and a path
    ending in [/] gets an implicit [*]. *)

(** [".//Sequence"] *)
Definition p_sequence : path := [sel_self; sel_descendant "Sequence"].

(** [".//Sequence/[@cycle='1']"] *)
Definition p_cycle1 : path := p_sequence ++ [sel_attr_eq "cycle" "1"].

(** [".//Sequence/Frame/File/[@channel]"] *)
Definition p_channels : path :=
  p_sequence ++ [sel_child "Frame"; sel_child "File"; sel_has_attr "channel"].

(** [".//Sequence/Frame"] *)
Definition p_frames : path := p_sequence ++ [sel_child "Frame"].

(** [".//PVStateValue/[@key='<key>']"], for the keys ["framePeriod"],
    ["scanLinePeriod"] and ["pixelsPerLine"]. *)
Definition p_state (key : string) : path :=
  [sel_self; sel_descendant "PVStateValue"; sel_attr_eq "key" key].

(** [".//PVStateValue/[@key='<key>']/IndexedValue/[@index='<axis>']"], for
    ["micronsPerPixel"] and ["currentScanCenter"]. *)
Definition p_indexed (key axis : string) : path :=
  p_state key ++ [sel_child "IndexedValue"; sel_attr_eq "index" axis].

(** The tail ["PVStateValue/[@key='positionCurrent']/SubindexedValues/[@index='ZAxis']"]
    shared by the Z paths. *)
Definition z_axis_tail : path :=
  [sel_attr_eq "key" "positionCurrent"; sel_child "SubindexedValues"; sel_attr_eq "index" "ZAxis"].

(** [".//Sequence/[@cycle='1']/Frame/PVStateShard/PVStateValue/[@key='positionCurrent']/SubindexedValues/[@index='ZAxis']"] *)
Definition p_frame_z : path :=
  p_cycle1 ++ [sel_child "Frame"; sel_child "PVStateShard"; sel_child "PVStateValue"] ++ z_axis_tail.

(** [".//PVStateValue/[@key='positionCurrent']/SubindexedValues/[@index='ZAxis']/SubindexedValue"] *)
Definition p_document_z : path :=
  [sel_self; sel_descendant "PVStateValue"] ++ z_axis_tail ++ [sel_child "SubindexedValue"].

(** [".//Sequence/[@cycle='1']/Frame"] *)
Definition p_cycle1_frames : path := p_cycle1 ++ [sel_child "Frame"].

(** [".//Sequence/[@cycle='1']/Frame/[@index='1']/PVStateShard/PVStateValue/[@key='positionCurrent']/SubindexedValues/[@index='ZAxis']"],
    the prefix of the next two. *)
Definition p_frame1_z : path :=
  p_cycle1_frames ++ [sel_attr_eq "index" "1"; sel_child "PVStateShard"; sel_child "PVStateValue"]
    ++ z_axis_tail.

(** The path above followed by ["/SubindexedValue"]. *)
Definition p_z_controllers : path := p_frame1_z ++ [sel_child "SubindexedValue"].

(** The path above [p_z_controllers] followed by ["/"], hence by [*]. *)
Definition p_z_controller_children : path := p_frame1_z ++ [sel_star].

(** [p_frame_z] followed by ["/SubindexedValue/[@subindex='<subindex>']"],
    when the text between the quotes is the literal [subindex]. *)
Definition p_subindex (subindex : string) : path :=
  p_frame_z ++ [sel_child "SubindexedValue"; sel_attr_eq "subindex" subindex].

(** ** The Python runtime *)

(** A [datetime.datetime] value. *)
Record datetime : Type :=
  { year : Z; month : Z; day : Z; hour : Z; minute : Z; second : Z }.

(** What the interpreter and the libraries outside the reader compute from
    a text.  [None] stands for the [ValueError] the call raises.
    - [int_of_str s] is [int(s)], [float_of_str s] is [float(s)] on a [str];
    - [np_float64 x] is [np.float64(x)] on a [str] or [None];
    - [strptime s] is [datetime.strptime(s, "%m/%d/%Y %I:%M:%S %p")];
    - [findall_spliced root text] is what [root.findall] does with the path
      obtained by writing [text] between the quotes of [[@subindex='...']]
      when [text] itself holds a quote, so that the quoted literal ends
      early and the path is no longer the intended predicate. *)
Class PyRuntime : Type :=
  { int_of_str : string → option Z;
    float_of_str : string → option float;
    np_float64 : option string → result float;
    strptime : string → option datetime;
    findall_spliced : Element → string → result (list Element) }.

(** The directory side of the call: [parent p] is
    [str(pathlib.Path(p).parent)] and [glob_xml d] lists, for the files of
    [d.glob("*.xml")] in the order the file system yields them, what
    [ET.parse(xml_file).getroot()] gives: the tree of a well-formed file,
    or the exception raised on a file that cannot be read or parsed
    ([ParseError], [OSError]). *)
Record FileSystem : Type :=
  { parent : string → string;
    glob_xml : string → list (result Element) }.

(** ** Python operations used by the reader *)

(** [l[i]], negative [i] counting from the end. *)
Definition getitem {A} (l : list A) (i : Z) : result A :=
  let j := if i <? 0 then i + Z.of_nat (length l) else i in
  if j <? 0 then Raise IndexError
  else match l !! Z.to_nat j with Some x => Ok x | None => Raise IndexError end.

(** [x.attrib] where [x] may be [None]. *)
Definition dot_attrib (x : option Element) : result Element :=
  match x with Some elem => Ok elem | None => Raise AttributeError end.

(** [a / b] on floats. *)
Definition truediv (a b : float) : result float :=
  if (b =? 0)%float then Raise ZeroDivisionError else Ok (a / b)%float.

(** [float(n)] on an [int]: nearest binary64, [OverflowError] beyond. *)
Definition float_of_int (n : Z) : result float :=
  let f := SF2Prim (binary_normalize prec emax n 0 false) in
  if is_infinity f then Raise OverflowError else Ok f.

(** [sum] of a list of booleans. *)
Fixpoint sum (l : list bool) : nat :=
  match l with
  | [] => 0
  | b :: l' => ((if b then 1 else 0) + sum l')%nat
  end.

(** [l.index(x)]. *)
Fixpoint index (l : list bool) (x : bool) : result nat :=
  match l with
  | [] => Raise ValueError
  | b :: l' => if bool_decide (b = x) then Ok 0%nat else S <$> index l' x
  end.

(** [all(body(x) for x in l)]: the body is evaluated element by element
    and the scan stops at the first false. *)
Fixpoint all {A} (body : A → result bool) (l : list A) : result bool :=
  match l with
  | [] => Ok true
  | x :: l' => body x ≫= λ b : bool, if b then all body l' else Ok false
  end.

(** [len(set(l))]. *)
Definition len_set (l : list Z) : nat := size (list_to_set l : gset Z).

(** Whether the text holds the character [c]. *)
Fixpoint holds (c : ascii) (s : string) : bool :=
  match s with
  | EmptyString => false
  | String c' s' => if bool_decide (c' = c) then true else holds c s'
  end.

(** The quote character, code 39. *)
Definition quote : ascii := ascii_of_nat 39.

(** ** Local variables of [get_pv_metadata]

    The values the function holds after its scalar part (lines 44-99) and
    after its depth part (lines 100-163), under the names of the source. *)

(** The three shapes [z_fields] takes: a [numpy.float64] scalar, a list of
    floats, a list of [attrib.get("value")] results ([str] or [None]). *)
Inductive z_value : Type :=
| np_scalar (z : float)
| float_list (l : list float)
| str_list (l : list (option string)).

Module Locals.
Record scan_fields : Type :=
  { bidirectional_scan : bool;
    roi : nat;
    n_fields : nat;
    record_start_time : option string;
    n_channels : nat;
    n_frames : nat;
    framerate : float;
    usec_per_line : float;
    scan_datetime : datetime;
    total_duration : float;
    px_height : Z;
    px_width : Z;
    um_height : float;
    um_width : float;
    x_field : float;
    y_field : float }.

Record depth_fields : Type :=
  { z_fields : z_value;
    n_depths : nat;
    bidirection_z : bool }.
End Locals.

(** The returned dict, one field per key. *)
Record metainfo : Type :=
  { num_fields : nat;
    num_channels : nat;
    num_planes : nat;
    num_frames : nat;
    num_rois : nat;
    x_pos : option float;
    y_pos : option float;
    z_pos : option float;
    frame_rate : float;
    bidirectional : bool;
    bidirectional_z : bool;
    scan_datetime : datetime;
    usecs_per_line : float;
    scan_duration : float;
    height_in_pixels : Z;
    width_in_pixels : Z;
    height_in_um : float;
    width_in_um : float;
    fieldX : float;
    fieldY : float;
    fieldZ : z_value;
    recording_time : option string }.

(** [z.size] and [len(z)]. *)
Definition np_size (z : z_value) : result nat :=
  match z with np_scalar _ => Ok 1%nat | _ => Raise AttributeError end.

Definition len (z : z_value) : result nat :=
  match z with
  | np_scalar _ => Raise TypeError
  | float_list l => Ok (length l)
  | str_list l => Ok (length l)
  end.

Section Reader.
Context `{PyRuntime}.

Definition py_int (x : option string) : result Z :=
  match x with
  | None => Raise TypeError
  | Some s => match int_of_str s with Some n => Ok n | None => Raise ValueError end
  end.

Definition py_float (x : option string) : result float :=
  match x with
  | None => Raise TypeError
  | Some s => match float_of_str s with Some f => Ok f | None => Raise ValueError end
  end.

Definition py_strptime (x : option string) : result datetime :=
  match x with
  | None => Raise TypeError
  | Some s => match strptime s with Some d => Ok d | None => Raise ValueError end
  end.

(** [root.findall("<p_frame_z>/SubindexedValue/[@subindex='{0}']".format(x))]:
    [format] writes [None] as the text ["None"]. *)
Definition findall_subindex (root : Element) (x : option string) : result (list Element) :=
  let text := default "None" x in
  if holds quote text then findall_spliced root text
  else Ok (findall root (p_subindex text)).

(** ** Stage 1: the metadata file (lines 32-42)

    The [for ... else] loop.  Each file is parsed when the loop reaches it,
    and an exception of the parser leaves the function.  An [Element] is
    true when it has children, so [if root.find(".//Sequence"):] asks for a
    first [Sequence] with at least one child. *)
Definition truth (x : option Element) : bool :=
  match x with
  | None => false
  | Some elem => match children elem with [] => false | _ :: _ => true end
  end.

Fixpoint first_metadata (dir : string) (xml_files : list (result Element)) : result Element :=
  match xml_files with
  | [] => Raise (FileNotFoundError ("No PrarieView metadata XML file found at " +:+ dir))
  | Raise e :: _ => Raise e
  | Ok root :: xml_files' =>
      if truth (find root p_sequence) then Ok root else first_metadata dir xml_files'
  end.

Definition locate (fs : FileSystem) (pvtiffile : string) : result Element :=
  first_metadata (parent fs pvtiffile) (glob_xml fs (parent fs pvtiffile)).

(** ** Stage 2: the scalar fields (lines 44-99) *)

Definition channel_list (root : Element) : result (list Z) :=
  mapM (λ channel, py_int (get channel "channel")) (findall root p_channels).

(** [float(root.findall(".//PVStateValue/[@key='<key>']")[0].attrib.get("value"))] *)
Definition state_float (root : Element) (key : string) : result float :=
  elem ← getitem (findall root (p_state key)) 0; py_float (get elem "value").

(** [int(root.findall(".//PVStateValue/[@key='<key>']")[0].attrib.get("value"))] *)
Definition state_int (root : Element) (key : string) : result Z :=
  elem ← getitem (findall root (p_state key)) 0; py_int (get elem "value").

(** [float(root.find("<p_indexed key axis>").attrib.get("value"))] *)
Definition indexed_float (root : Element) (key axis : string) : result float :=
  elem ← dot_attrib (find root (p_indexed key axis)); py_float (get elem "value").

Definition read_scan_fields (root : Element) : result Locals.scan_fields :=
  seq ← dot_attrib (find root p_cycle1);
  let record_start_time := get seq "time" in
  channel_list ← channel_list root;
  let n_channels := len_set channel_list in
  let n_frames := length (findall root p_frames) in
  frame_period ← state_float root "framePeriod";
  framerate ← truediv 1 frame_period;
  line_period ← state_float root "scanLinePeriod";
  let usec_per_line := (line_period * 1e6)%float in
  scan_datetime ← py_strptime (get root "date");
  last_frame ← getitem (findall root p_frames) (-1);
  total_duration ← py_float (get last_frame "relativeTime");
  px_height ← state_int root "pixelsPerLine";
  let px_width := px_height in
  um_per_pixel ← indexed_float root "micronsPerPixel" "XAxis";
  px ← float_of_int px_height;
  let um_height := (px * um_per_pixel)%float in
  let um_width := um_height in
  x_field ← indexed_float root "currentScanCenter" "XAxis";
  y_field ← indexed_float root "currentScanCenter" "YAxis";
  Ok {| Locals.bidirectional_scan := false; Locals.roi := 0; Locals.n_fields := 1;
        Locals.record_start_time := record_start_time;
        Locals.n_channels := n_channels; Locals.n_frames := n_frames;
        Locals.framerate := framerate; Locals.usec_per_line := usec_per_line;
        Locals.scan_datetime := scan_datetime; Locals.total_duration := total_duration;
        Locals.px_height := px_height; Locals.px_width := px_width;
        Locals.um_height := um_height; Locals.um_width := um_width;
        Locals.x_field := x_field; Locals.y_field := y_field |}.

(** ** Stage 3: the depths (lines 100-163) *)

(** [not all(z == z_controller[0] for z in z_controller)] *)
Definition controller_varies (z_controller : list float) : result bool :=
  negb <$> all (λ z, z0 ← getitem z_controller 0; Ok (z =? z0)%float) z_controller.

(** The list built by the loop of lines 132-144. *)
Definition z_repeats (root : Element) : result (list (list float)) :=
  mapM (λ controller,
          zs ← findall_subindex root (get controller "subindex");
          mapM (λ z, py_float (get z "value")) zs)
       (findall root p_z_controller_children).

(** Lines 132-151, the branch [len(z_controllers) > 1]. *)
Definition several_controllers (root : Element) : result z_value :=
  z_repeats ← z_repeats root;
  controller_assert ← mapM controller_varies z_repeats;
  if bool_decide (sum controller_assert = 1%nat) then
    i ← index controller_assert true;
    float_list <$> getitem z_repeats (Z.of_nat i)
  else Raise (AssertionError "Multiple controllers changing z depth is not supported").

(** Lines 154-159, the other branch. *)
Definition one_controller (root : Element) : z_value :=
  str_list ((λ z, get z "value") <$> findall root (p_subindex "0")).

Definition planes (root : Element) : result (list Z) :=
  mapM (λ plane, py_int (get plane "index")) (findall root p_cycle1_frames).

Definition read_depth_fields (root : Element) : result Locals.depth_fields :=
  match find root p_frame_z with
  | None =>
      elem ← dot_attrib (find root p_document_z);
      z ← np_float64 (get elem "value");
      let z_fields := np_scalar z in
      let n_depths := 1%nat in
      size ← np_size z_fields;
      if bool_decide (size = n_depths) then
        Ok {| Locals.z_fields := z_fields; Locals.n_depths := n_depths;
              Locals.bidirection_z := false |}
      else Raise (AssertionError "")
  | Some _ =>
      seq ← dot_attrib (find root p_sequence);
      let bidirection_z := bool_decide (get seq "bidirectionalZ" = Some "True") in
      planes ← planes root;
      let n_depths := len_set planes in
      let z_controllers := findall root p_z_controllers in
      z_fields ← (if bool_decide (1 < length z_controllers)%nat
                   then several_controllers root
                   else Ok (one_controller root));
      n ← len z_fields;
      if bool_decide (n = n_depths) then
        Ok {| Locals.z_fields := z_fields; Locals.n_depths := n_depths;
              Locals.bidirection_z := bidirection_z |}
      else Raise (AssertionError "Number of z fields does not match number of depths.")
  end.

(** ** Stage 4: the dict (lines 165-190) *)

Definition make_metainfo (s : Locals.scan_fields) (d : Locals.depth_fields) : metainfo :=
  {| num_fields := Locals.n_fields s;
     num_channels := Locals.n_channels s;
     num_planes := Locals.n_depths d;
     num_frames := Locals.n_frames s;
     num_rois := Locals.roi s;
     x_pos := None;
     y_pos := None;
     z_pos := None;
     frame_rate := Locals.framerate s;
     bidirectional := Locals.bidirectional_scan s;
     bidirectional_z := Locals.bidirection_z d;
     scan_datetime := Locals.scan_datetime s;
     usecs_per_line := Locals.usec_per_line s;
     scan_duration := Locals.total_duration s;
     height_in_pixels := Locals.px_height s;
     width_in_pixels := Locals.px_width s;
     height_in_um := Locals.um_height s;
     width_in_um := Locals.um_width s;
     fieldX := Locals.x_field s;
     fieldY := Locals.y_field s;
     fieldZ := Locals.z_fields d;
     recording_time := Locals.record_start_time s |}.

Definition get_pv_metadata (fs : FileSystem) (pvtiffile : string) : result metainfo :=
  root ← locate fs pvtiffile;
  s ← read_scan_fields root;
  d ← read_depth_fields root;
  Ok (make_metainfo s d).

End Reader.

(** ** A concrete runtime

    [sample_runtime] reads texts the way CPython does on the plain ASCII
    forms the sample documents below contain: optionally signed decimal
    integers; decimal floats with optional fraction and exponent, [inf] and
    [nan], rounded to the nearest binary64 (ties to even); dates written as
    [month/day/year hour:minute:second AM|PM].  Blanks around a number are
    dropped.  Other texts are reported as [ValueError]. *)

Definition is_space (c : ascii) : bool :=
  let n := nat_of_ascii c in
  bool_decide (9 ≤ n ≤ 13)%nat || bool_decide (28 ≤ n ≤ 32)%nat.

Fixpoint lstrip (s : string) : string :=
  match s with
  | String c s' => if is_space c then lstrip s' else s
  | EmptyString => s
  end.

Definition strip (s : string) : string :=
  String.rev (lstrip (String.rev (lstrip s))).

Definition digit (c : ascii) : option Z :=
  let n := nat_of_ascii c in
  if bool_decide (48 ≤ n ≤ 57)%nat then Some (Z.of_nat n - 48) else None.

(** Reads at most [fuel] leading digits: the number read so far, how many
    digits it took, and the rest of the text. *)
Fixpoint digits (fuel : nat) (s : string) (acc : Z) (n : nat) : Z * nat * string :=
  match fuel, s with
  | S fuel', String c s' =>
      match digit c with
      | Some d => digits fuel' s' (10 * acc + d) (S n)
      | None => (acc, n, s)
      end
  | _, _ => (acc, n, s)
  end.

Definition all_digits (s : string) (acc : Z) : Z * nat * string :=
  digits (String.length s) s acc 0.

(** An optional sign: whether it is [-], and the rest. *)
Definition sign (s : string) : bool * string :=
  match s with
  | String "+" s' => (false, s')
  | String "-" s' => (true, s')
  | _ => (false, s)
  end.

Definition sample_int (s : string) : option Z :=
  let '(neg, s1) := sign (strip s) in
  match all_digits s1 0 with
  | (m, S _, EmptyString) => Some (if neg then - m else m)
  | _ => None
  end.

Definition lower (c : ascii) : ascii :=
  let n := nat_of_ascii c in
  if bool_decide (65 ≤ n ≤ 90)%nat then ascii_of_nat (n + 32) else c.

Fixpoint lowercase (s : string) : string :=
  match s with
  | String c s' => String (lower c) (lowercase s')
  | EmptyString => s
  end.

(** The binary64 nearest to [m * 10 ^ e], for [0 <= m]. *)
Definition decimal_float (m e : Z) : float :=
  if 0 <=? e then SF2Prim (binary_normalize prec emax (m * 10 ^ e) 0 false)
  else
    let d := 10 ^ (- e) in
    let s := Z.log2_up d + 64 in
    let q := Z.shiftl m s / d in
    let sticky := if Z.shiftl m s mod d =? 0 then 0 else 1 in
    SF2Prim (binary_normalize prec emax (2 * q + sticky) (- (s + 1)) false).

(** An optional exponent part [e[+-]ddd] that must end the text. *)
Definition exponent (s : string) : option Z :=
  match s with
  | EmptyString => Some 0
  | String c s' =>
      if bool_decide (lower c = "e"%char) then
        let '(neg, s1) := sign s' in
        match all_digits s1 0 with
        | (x, S _, EmptyString) => Some (if neg then - x else x)
        | _ => None
        end
      else None
  end.

Definition sample_float (s : string) : option float :=
  let '(neg, s1) := sign (strip s) in
  let signed (f : float) := if neg then (- f)%float else f in
  let word := lowercase s1 in
  if bool_decide (word = "inf" ∨ word = "infinity") then Some (signed infinity)
  else if bool_decide (word = "nan") then Some nan
  else
    let '(m1, n1, s2) := all_digits s1 0 in
    let '(m, n2, s3) :=
      match s2 with
      | String "." s2' => all_digits s2' m1
      | _ => (m1, 0%nat, s2)
      end in
    if bool_decide (n1 + n2 = 0)%nat then None
    else x ← exponent s3; Some (signed (decimal_float m (x - Z.of_nat n2))).

Definition expect (c : ascii) (s : string) : option string :=
  match s with
  | String c' s' => if bool_decide (c' = c) then Some s' else None
  | EmptyString => None
  end.

(** One or more blanks. *)
Definition blanks (s : string) : option string :=
  match s with
  | String c s' => if is_space c then Some (lstrip s') else None
  | EmptyString => None
  end.

(** A field of one to [width] digits (exactly [width] when [exact]). *)
Definition field (width : nat) (exact : bool) (s : string) : option (Z * string) :=
  match digits width s 0 0 with
  | (v, n, rest) =>
      if bool_decide (n = 0%nat) || (exact && negb (bool_decide (n = width))) then None
      else Some (v, rest)
  end.

Definition days_in_month (y m : Z) : Z :=
  if bool_decide (m = 2) then
    if bool_decide (y mod 4 = 0 ∧ (y mod 100 ≠ 0 ∨ y mod 400 = 0)) then 29 else 28
  else if bool_decide (m = 4 ∨ m = 6 ∨ m = 9 ∨ m = 11) then 30 else 31.

Definition sample_strptime (s : string) : option datetime :=
  '(mo, s) ← field 2 false s; s ← expect "/" s;
  '(d, s) ← field 2 false s; s ← expect "/" s;
  '(y, s) ← field 4 true s; s ← blanks s;
  '(h, s) ← field 2 false s; s ← expect ":" s;
  '(mi, s) ← field 2 false s; s ← expect ":" s;
  '(se, s) ← field 2 false s; s ← blanks s;
  let word := lowercase s in
  if bool_decide (1 ≤ mo ≤ 12 ∧ 1 ≤ y ∧ 1 ≤ d ≤ days_in_month y mo
                  ∧ 1 ≤ h ≤ 12 ∧ mi ≤ 59 ∧ se ≤ 59 ∧ (word = "am" ∨ word = "pm")) then
    Some {| year := y; month := mo; day := d;
            hour := h mod 12 + (if bool_decide (word = "pm") then 12 else 0);
            minute := mi; second := se |}
  else None.

Definition sample_runtime : PyRuntime :=
  {| int_of_str := sample_int;
     float_of_str := sample_float;
     np_float64 x := match x with
                     | None => Ok nan
                     | Some s => match sample_float s with
                                 | Some f => Ok f
                                 | None => Raise ValueError
                                 end
                     end;
     strptime := sample_strptime;
     findall_spliced _ _ := Raise SyntaxError |}.

(** [Path(p).parent] for a path with no trailing or doubled slash. *)
Fixpoint dirname (s : string) : option string :=
  match s with
  | EmptyString => None
  | String c s' =>
      match dirname s' with
      | Some d => Some (String c d)
      | None => if bool_decide (c = "/"%char) then Some EmptyString else None
      end
  end.

Definition posix_parent (p : string) : string :=
  match dirname p with
  | None => "."
  | Some EmptyString => "/"
  | Some d => d
  end.

(** A directory tree in which every directory holds the given files, each
    given by what parsing it yields. *)
Definition directory (parsed : list (result Element)) : FileSystem :=
  {| parent := posix_parent; glob_xml _ := parsed |}.

(** The same, every file being well-formed. *)
Definition folder (xml_files : list Element) : FileSystem :=
  directory (Ok <$> xml_files).

(** ** Sample documents *)

Definition node (t : string) (attrs : list (string * string)) (cs : list Element) : Element :=
  Elem t (list_to_map attrs) cs.

(** [<PVStateValue key=... value=.../>] *)
Definition state_value (key value : string) : Element :=
  node "PVStateValue" [("key", key); ("value", value)] [].

(** [<PVStateValue key=...><IndexedValue index=... value=.../>...</PVStateValue>] *)
Definition indexed_value (key : string) (entries : list (string * string)) : Element :=
  node "PVStateValue" [("key", key)]
    ((λ e, node "IndexedValue" [("index", e.1); ("value", e.2)] []) <$> entries).

(** The [positionCurrent] entry with a [ZAxis] node holding one
    [SubindexedValue] per (subindex, value) pair. *)
Definition z_position (entries : list (string * string)) : Element :=
  node "PVStateValue" [("key", "positionCurrent")]
    [node "SubindexedValues" [("index", "XAxis")]
       [node "SubindexedValue" [("subindex", "0"); ("value", "-12.5")] []];
     node "SubindexedValues" [("index", "ZAxis")]
       ((λ e, node "SubindexedValue" [("subindex", e.1); ("value", e.2)] []) <$> entries)].

(** A frame with one file and its per-frame state block. *)
Definition frame (index relative_time channel : string) (shard : list Element) : Element :=
  node "Frame" [("index", index); ("relativeTime", relative_time)]
    [node "File" [("channel", channel); ("filename", "frame.ome.tif")] [];
     node "PVStateShard" [] shard].

Definition sequence (cycle : string) (frames : list Element) : Element :=
  node "Sequence" [("cycle", cycle); ("time", "14:03:27.1234567"); ("bidirectionalZ", "False")]
    frames.

(** The document-level state block of the samples. *)
Definition shard (frame_periods : list string) (pixels : string) : list Element :=
  (state_value "framePeriod" <$> frame_periods) ++
  [state_value "scanLinePeriod" "0.000063";
   state_value "pixelsPerLine" pixels;
   indexed_value "micronsPerPixel" [("XAxis", "1.2"); ("YAxis", "1.2"); ("ZAxis", "5")];
   indexed_value "currentScanCenter" [("XAxis", "0.5"); ("YAxis", "-0.25")];
   z_position [("0", "100.5")]].

Definition pvscan (state : list Element) (sequences : list Element) : Element :=
  node "PVScan" [("date", "3/9/2022 2:03:27 PM"); ("version", "5.5.64.500")]
    (node "PVStateShard" [] state :: sequences).

(** One plane: no frame carries a Z entry. *)
Definition doc_single_plane : Element :=
  pvscan (shard ["0.02"] "512")
    [sequence "1" [frame "1" "0" "1" []; frame "1" "0.02" "1" []; frame "1" "0.04" "1" []]].

(** The same acquisition at 1024 pixels per line. *)
Definition doc_single_plane_1024 : Element :=
  pvscan (shard ["0.02"] "1024")
    [sequence "1" [frame "1" "0" "1" []; frame "1" "0.02" "1" []; frame "1" "0.04" "1" []]].

(** Two [framePeriod] entries in the state block. *)
Definition doc_two_frame_periods : Element :=
  pvscan (shard ["0.02"; "0.05"] "512")
    [sequence "1" [frame "1" "0" "1" []; frame "1" "0.02" "1" []]].

(** No [framePeriod] entry at all. *)
Definition doc_no_frame_period : Element :=
  pvscan (shard [] "512") [sequence "1" [frame "1" "0" "1" []]].

(** Twelve frames whose channels alternate 1, 2, six times over. *)
Definition doc_alternating_channels : Element :=
  pvscan (shard ["0.02"] "512")
    [sequence "1" (mjoin (replicate 6 [frame "1" "0" "1" []; frame "1" "0" "2" []]))].

(** Three planes, one Z controller. *)
Definition doc_one_controller : Element :=
  pvscan (shard ["0.02"] "512")
    [sequence "1" [frame "1" "0" "1" [z_position [("0", "10")]];
                   frame "2" "0.02" "1" [z_position [("0", "20")]];
                   frame "3" "0.04" "1" [z_position [("0", "30")]]];
     sequence "2" [frame "1" "0.06" "1" [z_position [("0", "10")]];
                   frame "2" "0.08" "1" [z_position [("0", "20")]];
                   frame "3" "0.10" "1" [z_position [("0", "30")]]]].

(** Three planes, one Z controller, but four frames carry a Z entry for
    three distinct frame indices. *)
Definition doc_depth_mismatch : Element :=
  pvscan (shard ["0.02"] "512")
    [sequence "1" [frame "1" "0" "1" [z_position [("0", "10")]];
                   frame "2" "0.02" "1" [z_position [("0", "20")]];
                   frame "3" "0.04" "1" [z_position [("0", "30")]];
                   frame "3" "0.06" "1" [z_position [("0", "30")]]]].

(** Three planes, two Z controllers, of which the second moves. *)
Definition doc_two_controllers : Element :=
  pvscan (shard ["0.02"] "512")
    [sequence "1" [frame "1" "0" "1" [z_position [("0", "75"); ("1", "10")]];
                   frame "2" "0.02" "1" [z_position [("0", "75"); ("1", "20")]];
                   frame "3" "0.04" "1" [z_position [("0", "75"); ("1", "30")]]]].

(** Two Z controllers that both move. *)
Definition doc_both_vary : Element :=
  pvscan (shard ["0.02"] "512")
    [sequence "1" [frame "1" "0" "1" [z_position [("0", "75"); ("1", "10")]];
                   frame "2" "0.02" "1" [z_position [("0", "80"); ("1", "20")]]]].

(** Two Z controllers that both stay. *)
Definition doc_none_varies : Element :=
  pvscan (shard ["0.02"] "512")
    [sequence "1" [frame "1" "0" "1" [z_position [("0", "75"); ("1", "10")]];
                   frame "2" "0.02" "1" [z_position [("0", "75"); ("1", "10")]]]].

(** As [doc_two_controllers], with a third child under the Z node of frame
    index 1 whose subindex no per-frame [SubindexedValue] carries. *)
Definition doc_stray_child : Element :=
  pvscan (shard ["0.02"] "512")
    [sequence "1"
       [frame "1" "0" "1"
          [node "PVStateValue" [("key", "positionCurrent")]
             [node "SubindexedValues" [("index", "ZAxis")]
                [node "SubindexedValue" [("subindex", "0"); ("value", "75")] [];
                 node "SubindexedValue" [("subindex", "1"); ("value", "10")] [];
                 node "Description" [("subindex", "7"); ("text", "piezo")] []]]];
        frame "2" "0.02" "1" [z_position [("0", "75"); ("1", "20")]];
        frame "3" "0.04" "1" [z_position [("0", "75"); ("1", "30")]]]].

(** A document whose only [Sequence] element is empty. *)
Definition doc_empty_sequence : Element :=
  pvscan (shard ["0.02"] "512") [sequence "1" []].

(** An XML file of another kind. *)
Definition doc_other : Element :=
  node "Environment" [] [node "Setting" [("name", "laser")] []].

Definition tif : string := "/data/TSeries-001/TSeries-001_Cycle00001_Ch1_000001.ome.tif".

(** *** Further sample documents *)

(** A [Sequence] with a chosen [bidirectionalZ] text. *)
Definition sequence_flagged (cycle flag : string) (frames : list Element) : Element :=
  node "Sequence" [("cycle", cycle); ("time", "14:03:27.1234567"); ("bidirectionalZ", flag)]
    frames.

(** The only [Sequence] is numbered 2. *)
Definition doc_no_first_cycle : Element :=
  pvscan (shard ["0.02"] "512") [sequence "2" [frame "1" "0" "1" []]].

(** A frame period of zero. *)
Definition doc_zero_period : Element :=
  pvscan (shard ["0.0"] "512") [sequence "1" [frame "1" "0" "1" []]].

(** A [Sequence] with a child that is not a [Frame]. *)
Definition doc_no_frames : Element :=
  pvscan (shard ["0.02"] "512") [sequence "1" [node "PVStateShard" [] []]].

(** One plane, and no [positionCurrent] entry anywhere. *)
Definition doc_no_z_entry : Element :=
  pvscan [state_value "framePeriod" "0.02";
          state_value "scanLinePeriod" "0.000063";
          state_value "pixelsPerLine" "512";
          indexed_value "micronsPerPixel" [("XAxis", "1.2"); ("YAxis", "1.2")];
          indexed_value "currentScanCenter" [("XAxis", "0.5"); ("YAxis", "-0.25")]]
    [sequence "1" [frame "1" "0" "1" []]].

(** Three planes scanned in both directions. *)
Definition doc_bidirectional : Element :=
  pvscan (shard ["0.02"] "512")
    [sequence_flagged "1" "True"
       [frame "1" "0" "1" [z_position [("0", "10")]];
        frame "2" "0.02" "1" [z_position [("0", "20")]];
        frame "3" "0.04" "1" [z_position [("0", "30")]]]].

(** The same flag written in lower case. *)
Definition doc_bidirectional_lower : Element :=
  pvscan (shard ["0.02"] "512")
    [sequence_flagged "1" "true"
       [frame "1" "0" "1" [z_position [("0", "10")]];
        frame "2" "0.02" "1" [z_position [("0", "20")]]]].

(** One plane under a [Sequence] flagged bidirectional. *)
Definition doc_bidirectional_single : Element :=
  pvscan (shard ["0.02"] "512")
    [sequence_flagged "1" "True" [frame "1" "0" "1" []; frame "1" "0.02" "1" []]].

(** As [doc_two_controllers], the frame indices written with a leading
    zero. *)
Definition doc_padded_indices : Element :=
  pvscan (shard ["0.02"] "512")
    [sequence "1" [frame "01" "0" "1" [z_position [("0", "75"); ("1", "10")]];
                   frame "02" "0.02" "1" [z_position [("0", "75"); ("1", "20")]];
                   frame "03" "0.04" "1" [z_position [("0", "75"); ("1", "30")]]]].

(** Two entries with the same subindex under each Z node. *)
Definition doc_duplicate_subindex : Element :=
  pvscan (shard ["0.02"] "512")
    [sequence "1" [frame "1" "0" "1" [z_position [("0", "10"); ("0", "10")]];
                   frame "2" "0.02" "1" [z_position [("0", "20"); ("0", "20")]]]].

(** Two controllers, of which the first stays and the second reports no
    number. *)
Definition doc_nan_controller : Element :=
  pvscan (shard ["0.02"] "512")
    [sequence "1" [frame "1" "0" "1" [z_position [("0", "75"); ("1", "nan")]];
                   frame "2" "0.02" "1" [z_position [("0", "75"); ("1", "nan")]]]].

(** A frame whose file carries no [channel] attribute. *)
Definition doc_no_channel : Element :=
  pvscan (shard ["0.02"] "512")
    [sequence "1"
       [node "Frame" [("index", "1"); ("relativeTime", "0")]
          [node "File" [("filename", "frame.ome.tif")] []; node "PVStateShard" [] []]]].

(** ** Vocabulary of the statements *)

(** The six single-node lookups of the scalar part, by their paths. *)
Definition scalar_paths : list path :=
  [p_state "framePeriod"; p_state "scanLinePeriod"; p_state "pixelsPerLine";
   p_indexed "micronsPerPixel" "XAxis";
   p_indexed "currentScanCenter" "XAxis"; p_indexed "currentScanCenter" "YAxis"].

(** A field of the returned dict is a constant of the format when any two
    successful calls, on any runtime, directory and file, agree on it. *)
Definition format_constant {A} (field : metainfo → A) : Prop :=
  ∀ (rt rt' : PyRuntime) fs fs' pvtiffile pvtiffile' r r',
    @get_pv_metadata rt fs pvtiffile = Ok r →
    @get_pv_metadata rt' fs' pvtiffile' = Ok r' →
    field r = field r'.

(** The Z entries one frame contributes for a subindex: the part of
    [p_subindex] after [.../Frame], applied to that frame alone. *)
Definition frame_z_values (subindex : string) (frame : Element) : list Element :=
  run_path ([sel_child "PVStateShard"; sel_child "PVStateValue"] ++ z_axis_tail
              ++ [sel_child "SubindexedValue"; sel_attr_eq "subindex" subindex]) [frame].

(** The document holds a [Sequence] element below its root. *)
Definition has_sequence (doc : Element) : Prop :=
  ∃ seq, seq ∈ tail (iter doc) ∧ tag seq = "Sequence".

(** The closed form of [controller_varies]. *)
Definition varies (z_controller : list float) : bool :=
  match z_controller with
  | [] => false
  | z0 :: _ => negb (forallb (λ z, (z =? z0)%float) z_controller)
  end.

(** Evaluation on the sample runtime, in a directory that holds an
    unrelated XML file before the document. *)
Definition sample_run (doc : Element) : result metainfo :=
  @get_pv_metadata sample_runtime (folder [doc_other; doc]) tif.

(** * Properties *)

Local Set Warnings "-inexact-float".

(** ** The error monad *)

Lemma bind_Ok {A B} (m : result A) (f : A → result B) (b : B) :
  m ≫= f = Ok b ↔ ∃ a, m = Ok a ∧ f a = Ok b.
Proof.
  destruct m as [a|e]; simpl; split.
  - eauto.
  - intros (a' & [= <-] & Hf). exact Hf.
  - discriminate.
  - intros (a' & [=] & _).
Qed.

Lemma fmap_Ok {A B} (f : A → B) (m : result A) (b : B) :
  f <$> m = Ok b ↔ ∃ a, m = Ok a ∧ b = f a.
Proof.
  destruct m as [a|e]; simpl; split.
  - intros [= <-]. eauto.
  - intros (a' & [= <-] & ->). reflexivity.
  - discriminate.
  - intros (a' & [=] & _).
Qed.

Lemma mapM_cons {A B} (f : A → result B) (x : A) (l : list A) :
  mapM f (x :: l) = y ← f x; k ← mapM f l; Ok (y :: k).
Proof. reflexivity. Qed.

Lemma mapM_Ok {A B} (f : A → result B) (l : list A) (k : list B) :
  mapM f l = Ok k ↔ Forall2 (λ x y, f x = Ok y) l k.
Proof.
  revert k. induction l as [|x l IH]; intros k.
  - simpl. split.
    + intros [= <-]. constructor.
    + intros Hk. inversion Hk. reflexivity.
  - rewrite mapM_cons, bind_Ok. split.
    + intros (y & Hy & Hrest). apply bind_Ok in Hrest as (k' & Hk' & [= <-]).
      constructor; [exact Hy | apply IH, Hk'].
    + intros Hk. inversion Hk as [|? y ? k' Hy Hk']; subst.
      exists y. split; [exact Hy|]. apply bind_Ok. exists k'.
      split; [apply IH, Hk' | reflexivity].
Qed.

(** ** Selectors work element by element *)

Lemma select_app (s : selector) (l1 l2 : list Element) :
  select s (l1 ++ l2) = select s l1 ++ select s l2.
Proof. destruct s; simpl; first [reflexivity | apply bind_app | apply filter_app]. Qed.

Lemma run_path_app (p : path) (l1 l2 : list Element) :
  run_path p (l1 ++ l2) = run_path p l1 ++ run_path p l2.
Proof.
  revert l1 l2. induction p as [|s p IH]; intros l1 l2; [reflexivity|].
  unfold run_path in *. simpl. rewrite select_app. apply IH.
Qed.

Lemma run_path_nil (p : path) : run_path p [] = [].
Proof.
  induction p as [|s p IH]; [reflexivity|].
  unfold run_path in *. simpl. destruct s; exact IH.
Qed.

Lemma run_path_bind (p : path) (l : list Element) :
  run_path p l = elem ← l; run_path p [elem].
Proof.
  induction l as [|x l IH]; [apply run_path_nil|].
  change (x :: l) with ([x] ++ l). rewrite run_path_app, IH, bind_app.
  f_equal. simpl. rewrite app_nil_r. reflexivity.
Qed.

Lemma findall_app (root : Element) (p q : path) :
  findall root (p ++ q) = run_path q (findall root p).
Proof. unfold findall, run_path. apply foldl_app. Qed.

(** Each match of the longer path lies below a match of the shorter one,
    and the matches come grouped by it, in its order. *)
Lemma findall_app_bind (root : Element) (p q : path) :
  findall root (p ++ q) = elem ← findall root p; run_path q [elem].
Proof. rewrite findall_app. apply run_path_bind. Qed.

Lemma find_app_None (root : Element) (p q : path) :
  find root p = None → find root (p ++ q) = None.
Proof.
  unfold find. rewrite findall_app. destruct (findall root p); [|discriminate].
  rewrite run_path_nil. reflexivity.
Qed.

Lemma find_None (root : Element) (p : path) : find root p = None ↔ findall root p = [].
Proof. unfold find. destruct (findall root p); simpl; split; congruence. Qed.

Lemma findall_sequence (root : Element) :
  findall root p_sequence = descendants "Sequence" root.
Proof. unfold findall, p_sequence. simpl. apply app_nil_r. Qed.

(** ** Python operations *)

Lemma getitem_0 {A} (l : list A) :
  getitem l 0 = match l with x :: _ => Ok x | [] => Raise IndexError end.
Proof. destruct l; reflexivity. Qed.

Lemma getitem_Ok_0 {A} (l : list A) (x : A) : getitem l 0 = Ok x ↔ head l = Some x.
Proof. rewrite getitem_0. destruct l; simpl; split; congruence. Qed.

Lemma getitem_last {A} (l : list A) (x : A) : getitem l (-1) = Ok x ↔ last l = Some x.
Proof.
  unfold getitem. change (-1 <? 0) with true. cbv iota.
  destruct (decide (l = [])) as [->|Hne]; [simpl; split; discriminate|].
  assert (0 < length l)%nat by (destruct l; [done | simpl; lia]).
  replace (-1 + Z.of_nat (length l) <? 0) with false by (symmetry; apply Z.ltb_ge; lia).
  replace (Z.to_nat (-1 + Z.of_nat (length l))) with (pred (length l)) by lia.
  rewrite last_lookup. destruct (l !! pred (length l)); split; congruence.
Qed.

Lemma getitem_nat_Ok {A} (l : list A) (i : nat) (x : A) :
  getitem l (Z.of_nat i) = Ok x ↔ l !! i = Some x.
Proof.
  unfold getitem.
  replace (Z.of_nat i <? 0) with false by (symmetry; apply Z.ltb_ge; lia).
  cbv iota. replace (Z.of_nat i <? 0) with false by (symmetry; apply Z.ltb_ge; lia).
  rewrite Nat2Z.id. destruct (l !! i); split; congruence.
Qed.

Lemma dot_attrib_Ok (x : option Element) (elem : Element) :
  dot_attrib x = Ok elem ↔ x = Some elem.
Proof. destruct x; simpl; split; congruence. Qed.

Lemma truediv_Ok (a b q : float) :
  truediv a b = Ok q ↔ (b =? 0)%float = false ∧ q = (a / b)%float.
Proof.
  unfold truediv. destruct (b =? 0)%float; split;
    first [discriminate | intros [? ?]; congruence | intros [= <-]; done].
Qed.

(** ** Comparing a list with its first element *)

(** [==] on floats behaves as an equivalence on the values that compare
    equal to something: it is the equality of the numbers, with the two
    zeros equal and [nan] equal to nothing. *)
Lemma SFeqb_inv (a b : spec_float) :
  SFeqb a b = true →
  (∃ s s', a = S754_zero s ∧ b = S754_zero s') ∨ (a = b ∧ a ≠ S754_nan).
Proof.
  unfold SFeqb.
  destruct a as [sa|sa| |sa ma ea], b as [sb|sb| |sb mb eb]; simpl; try discriminate;
    try (destruct sa; discriminate); try (destruct sb; discriminate).
  - intros _. left. eauto.
  - destruct sa, sb; try discriminate; intros _; right; split; congruence.
  - destruct sa, sb; try discriminate;
      destruct (Z.compare ea eb) eqn:He; try discriminate;
      apply Z.compare_eq in He as ->;
      rewrite Pos.compare_cont_spec; simpl;
      destruct (Pos.compare ma mb) eqn:Hm; try discriminate;
      apply Pos.compare_eq in Hm as ->; intros _; right; split; congruence.
Qed.

Lemma SFeqb_trans_r (a b c : spec_float) :
  SFeqb a c = true → SFeqb b c = true → SFeqb a b = true.
Proof.
  intros Hac Hbc.
  destruct (SFeqb_inv _ _ Hac) as [(s & s' & -> & ->)|[-> Hn]].
  - destruct (SFeqb_inv _ _ Hbc) as [(t & t' & -> & _)|[-> _]]; reflexivity.
  - destruct (SFeqb_inv _ _ Hbc) as [(t & t' & -> & ->)|[-> _]]; [reflexivity|].
    exact Hac.
Qed.

Lemma float_eqb_trans_r (x y z : float) :
  (x =? z)%float = true → (y =? z)%float = true → (x =? y)%float = true.
Proof. rewrite !FloatAxioms.eqb_spec. apply SFeqb_trans_r. Qed.

Lemma all_first (z0 : float) (rest l : list float) :
  all (λ z, z0' ← getitem (z0 :: rest) 0; Ok (z =? z0')%float) l
  = Ok (forallb (λ z, (z =? z0)%float) l).
Proof.
  induction l as [|z l IH]; [reflexivity|].
  simpl. destruct (z =? z0)%float; [exact IH | reflexivity].
Qed.

Lemma controller_varies_eq (z_controller : list float) :
  controller_varies z_controller = Ok (varies z_controller).
Proof.
  unfold controller_varies. destruct z_controller as [|z0 rest]; [reflexivity|].
  rewrite all_first. reflexivity.
Qed.

Lemma varies_spec (l : list float) :
  varies l = true ↔ ∃ x y, x ∈ l ∧ y ∈ l ∧ (x =? y)%float = false.
Proof.
  destruct l as [|z0 rest]; simpl.
  - split; [discriminate|]. intros (x & _ & Hx & _). by apply elem_of_nil in Hx.
  - set (l := z0 :: rest). change ((z0 =? z0)%float && forallb (λ z, (z =? z0)%float) rest)
      with (forallb (λ z, (z =? z0)%float) l).
    rewrite negb_true_iff. split.
    + intros Hall. destruct (forallb (λ z, (z =? z0)%float) l) eqn:Hf; [discriminate|].
      apply not_true_iff_false in Hf. rewrite forallb_forall in Hf.
      destruct (decide (Forall (λ z, (z =? z0)%float = true) l)) as [Hd|Hd].
      * exfalso. apply Hf. intros z Hz. rewrite Forall_forall in Hd. apply Hd.
        by apply list_elem_of_In.
      * apply not_Forall_Exists in Hd; [|intros z; apply _].
        apply Exists_exists in Hd as (z & Hz & Hne).
        exists z, z0. split; [exact Hz|]. split; [subst l; left|]. simpl in Hne. by apply not_true_is_false.
    + intros (x & y & Hx & Hy & Hne).
      destruct (forallb (λ z, (z =? z0)%float) l) eqn:Hf; [|reflexivity].
      rewrite forallb_forall in Hf.
      rewrite (float_eqb_trans_r x y z0) in Hne; [discriminate| |];
        apply Hf; by apply list_elem_of_In.
Qed.

Lemma mapM_controller_varies (zr : list (list float)) :
  mapM controller_varies zr = Ok (varies <$> zr).
Proof.
  apply mapM_Ok. induction zr as [|l zr IH]; constructor; [apply controller_varies_eq | exact IH].
Qed.

Lemma sum_one (ca : list bool) :
  sum ca = 1%nat →
  ∃ i, index ca true = Ok i ∧ ca !! i = Some true ∧ ∀ j, ca !! j = Some true → j = i.
Proof.
  induction ca as [|b ca IH]; [discriminate|]. simpl. destruct b.
  - intros Hs. exists 0%nat. split; [reflexivity|]. split; [reflexivity|].
    intros [|j] Hj; [reflexivity|]. exfalso. simpl in Hj.
    assert (Hz : sum ca = 0%nat) by lia. clear -Hj Hz.
    revert j Hj. induction ca as [|b ca IH]; intros j Hj; [by destruct j|].
    simpl in Hz. destruct b; [lia|]. destruct j as [|j]; [discriminate|]. eapply IH; [lia|exact Hj].
  - intros Hs. destruct (IH Hs) as (i & Hi & Hti & Hu). exists (S i).
    rewrite Hi. split; [reflexivity|]. split; [exact Hti|].
    intros [|j] Hj; [discriminate|]. f_equal. apply Hu. exact Hj.
Qed.

Section Properties.
Context `{PyRuntime}.

(** ** Stage 1 *)

Lemma truth_Some (x : option Element) :
  truth x = true → ∃ elem, x = Some elem ∧ children elem ≠ [].
Proof.
  destruct x as [elem|]; [|discriminate]. simpl.
  destruct (children elem) eqn:Hc; [discriminate|]. intros _. exists elem.
  rewrite Hc. split; [reflexivity | discriminate].
Qed.

Lemma first_metadata_Ok (dir : string) (xml_files : list (result Element)) (root : Element) :
  first_metadata dir xml_files = Ok root ↔
  ∃ before after, xml_files = (Ok <$> before) ++ Ok root :: after
    ∧ Forall (λ doc, truth (find doc p_sequence) = false) before
    ∧ truth (find root p_sequence) = true.
Proof.
  induction xml_files as [|[doc|e] rest IH]; simpl.
  - split; [discriminate|]. intros (before & after & Heq & _). by destruct before.
  - destruct (truth (find doc p_sequence)) eqn:Ht.
    + split.
      * intros [= <-]. exists [], rest. auto.
      * intros ([|doc' before] & after & Heq & Hb & Hr); simplify_eq/=; [done|].
        inversion Hb; congruence.
    + rewrite IH. split.
      * intros (before & after & -> & Hb & Hr). exists (doc :: before), after. auto.
      * intros ([|doc' before] & after & Heq & Hb & Hr); simplify_eq/=; [congruence|].
        exists before, after. inversion Hb; auto.
  - split; [discriminate|].
    intros ([|doc' before] & after & Heq & _); simplify_eq/=.
Qed.

Lemma first_metadata_Raise (dir : string) (xml_files : list (result Element)) :
  (∀ parsed, parsed ∈ xml_files →
     ∃ doc, parsed = Ok doc ∧ truth (find doc p_sequence) = false) →
  first_metadata dir xml_files
  = Raise (FileNotFoundError ("No PrarieView metadata XML file found at " +:+ dir)).
Proof.
  induction xml_files as [|parsed rest IH]; intros Hall; [reflexivity|].
  destruct (Hall parsed) as (doc & -> & Ht); [left|].
  simpl. rewrite Ht. apply IH. intros d Hd. apply Hall. by right.
Qed.


(** ** Stage 2 *)

Lemma read_scan_fields_Ok (root : Element) (s : Locals.scan_fields) :
  read_scan_fields root = Ok s →
  ∃ seq chans period line_period date last_frame px um,
    find root p_cycle1 = Some seq
    ∧ channel_list root = Ok chans
    ∧ state_float root "framePeriod" = Ok period
    ∧ (period =? 0)%float = false
    ∧ state_float root "scanLinePeriod" = Ok line_period
    ∧ py_strptime (get root "date") = Ok date
    ∧ last (findall root p_frames) = Some last_frame
    ∧ py_float (get last_frame "relativeTime") = Ok (Locals.total_duration s)
    ∧ state_int root "pixelsPerLine" = Ok (Locals.px_height s)
    ∧ indexed_float root "micronsPerPixel" "XAxis" = Ok um
    ∧ float_of_int (Locals.px_height s) = Ok px
    ∧ indexed_float root "currentScanCenter" "XAxis" = Ok (Locals.x_field s)
    ∧ indexed_float root "currentScanCenter" "YAxis" = Ok (Locals.y_field s)
    ∧ s = {| Locals.bidirectional_scan := false; Locals.roi := 0; Locals.n_fields := 1;
             Locals.record_start_time := get seq "time";
             Locals.n_channels := len_set chans;
             Locals.n_frames := length (findall root p_frames);
             Locals.framerate := (1 / period)%float;
             Locals.usec_per_line := (line_period * 1e6)%float;
             Locals.scan_datetime := date;
             Locals.total_duration := Locals.total_duration s;
             Locals.px_height := Locals.px_height s;
             Locals.px_width := Locals.px_height s;
             Locals.um_height := (px * um)%float;
             Locals.um_width := (px * um)%float;
             Locals.x_field := Locals.x_field s;
             Locals.y_field := Locals.y_field s |}.
Proof.
  unfold read_scan_fields. intros Hs.
  apply bind_Ok in Hs as (seq & Hseq & Hs). apply dot_attrib_Ok in Hseq.
  apply bind_Ok in Hs as (chans & Hchans & Hs).
  apply bind_Ok in Hs as (period & Hperiod & Hs).
  apply bind_Ok in Hs as (rate & Hrate & Hs). apply truediv_Ok in Hrate as [Hnz ->].
  apply bind_Ok in Hs as (line_period & Hline & Hs).
  apply bind_Ok in Hs as (date & Hdate & Hs).
  apply bind_Ok in Hs as (last_frame & Hlast & Hs). apply getitem_last in Hlast.
  apply bind_Ok in Hs as (duration & Hduration & Hs).
  apply bind_Ok in Hs as (height & Hheight & Hs).
  apply bind_Ok in Hs as (um & Hum & Hs).
  apply bind_Ok in Hs as (px & Hpx & Hs).
  apply bind_Ok in Hs as (x & Hx & Hs).
  apply bind_Ok in Hs as (y & Hy & Hs).
  injection Hs as <-. simpl.
  exists seq, chans, period, line_period, date, last_frame, px, um.
  repeat split; assumption.
Qed.

(** ** The whole call *)

Lemma get_pv_metadata_Ok (fs : FileSystem) (pvtiffile : string) (r : metainfo) :
  get_pv_metadata fs pvtiffile = Ok r ↔
  ∃ root s d, locate fs pvtiffile = Ok root
    ∧ read_scan_fields root = Ok s
    ∧ read_depth_fields root = Ok d
    ∧ r = make_metainfo s d.
Proof.
  unfold get_pv_metadata. split.
  - intros Hr. apply bind_Ok in Hr as (root & Hroot & Hr).
    apply bind_Ok in Hr as (s & Hs & Hr). apply bind_Ok in Hr as (d & Hd & [= <-]).
    eauto 10.
  - intros (root & s & d & -> & Hs & Hd & ->). simpl. rewrite Hs. simpl. rewrite Hd.
    reflexivity.
Qed.

Lemma get_pv_metadata_located (fs : FileSystem) (pvtiffile : string) (root : Element) :
  locate fs pvtiffile = Ok root →
  get_pv_metadata fs pvtiffile
  = s ← read_scan_fields root; d ← read_depth_fields root; Ok (make_metainfo s d).
Proof. unfold get_pv_metadata. intros ->. reflexivity. Qed.

End Properties.

Section Depths.
Context `{PyRuntime}.

(** ** Stage 3 *)

Lemma several_controllers_run (root : Element) (zr : list (list float)) :
  z_repeats root = Ok zr →
  several_controllers root
  = if bool_decide (sum (varies <$> zr) = 1%nat) then
      i ← index (varies <$> zr) true; float_list <$> getitem zr (Z.of_nat i)
    else Raise (AssertionError "Multiple controllers changing z depth is not supported").
Proof.
  unfold several_controllers. intros ->. simpl. rewrite mapM_controller_varies. reflexivity.
Qed.

Lemma several_controllers_one (root : Element) (zr : list (list float)) :
  z_repeats root = Ok zr → sum (varies <$> zr) = 1%nat →
  ∃ i zc, zr !! i = Some zc ∧ varies zc = true
    ∧ (∀ j zc', zr !! j = Some zc' → varies zc' = true → j = i)
    ∧ several_controllers root = Ok (float_list zc).
Proof.
  intros Hzr Hsum. rewrite (several_controllers_run _ _ Hzr), bool_decide_true by exact Hsum.
  destruct (sum_one _ Hsum) as (i & Hi & Hti & Huniq). rewrite Hi. simpl.
  rewrite list_lookup_fmap in Hti. destruct (zr !! i) as [zc|] eqn:Hzc; [|discriminate].
  injection Hti as Hv. exists i, zc. split; [exact Hzc|]. split; [exact Hv|]. split.
  - intros j zc' Hj Hv'. apply Huniq. rewrite list_lookup_fmap, Hj. simpl. by rewrite Hv'.
  - apply getitem_nat_Ok in Hzc. rewrite Hzc. reflexivity.
Qed.

Lemma several_controllers_other (root : Element) (zr : list (list float)) :
  z_repeats root = Ok zr → sum (varies <$> zr) ≠ 1%nat →
  several_controllers root
  = Raise (AssertionError "Multiple controllers changing z depth is not supported").
Proof.
  intros Hzr Hsum. rewrite (several_controllers_run _ _ Hzr), bool_decide_false by exact Hsum.
  reflexivity.
Qed.

Lemma find_sequence_of_frame_z (root : Element) :
  find root p_frame_z ≠ None → ∃ seq, find root p_sequence = Some seq.
Proof.
  intros Hz. destruct (find root p_sequence) as [seq|] eqn:Hs; [eauto|].
  exfalso. apply Hz.
  change p_frame_z with
    (p_sequence ++ sel_attr_eq "cycle" "1"
       :: [sel_child "Frame"; sel_child "PVStateShard"; sel_child "PVStateValue"] ++ z_axis_tail).
  apply find_app_None, Hs.
Qed.

(** The multi-plane branch, once the steps before the controller test
    have succeeded. *)
Lemma read_depth_fields_frames (root zaxis seq : Element) (pl : list Z) :
  find root p_frame_z = Some zaxis → find root p_sequence = Some seq → planes root = Ok pl →
  read_depth_fields root
  = z_fields ← (if bool_decide (1 < length (findall root p_z_controllers))%nat
                then several_controllers root
                else Ok (one_controller root));
    n ← len z_fields;
    if bool_decide (n = len_set pl) then
      Ok {| Locals.z_fields := z_fields; Locals.n_depths := len_set pl;
            Locals.bidirection_z := bool_decide (get seq "bidirectionalZ" = Some "True") |}
    else Raise (AssertionError "Number of z fields does not match number of depths.").
Proof.
  intros Hz Hseq Hpl. unfold read_depth_fields. rewrite Hz, Hseq. simpl. rewrite Hpl.
  reflexivity.
Qed.

Lemma read_depth_fields_frames_Ok (root zaxis : Element) (d : Locals.depth_fields) :
  find root p_frame_z = Some zaxis → read_depth_fields root = Ok d →
  ∃ seq pl, find root p_sequence = Some seq ∧ planes root = Ok pl
    ∧ Locals.n_depths d = len_set pl
    ∧ Locals.bidirection_z d = bool_decide (get seq "bidirectionalZ" = Some "True")
    ∧ len (Locals.z_fields d) = Ok (len_set pl)
    ∧ (if bool_decide (1 < length (findall root p_z_controllers))%nat
       then several_controllers root else Ok (one_controller root)) = Ok (Locals.z_fields d).
Proof.
  intros Hz Hd. unfold read_depth_fields in Hd. rewrite Hz in Hd.
  apply bind_Ok in Hd as (seq & Hseq & Hd). apply dot_attrib_Ok in Hseq.
  apply bind_Ok in Hd as (pl & Hpl & Hd). apply bind_Ok in Hd as (z & Hzf & Hd).
  apply bind_Ok in Hd as (n & Hn & Hd). case_bool_decide; [|discriminate].
  injection Hd as <-. simpl. exists seq, pl. subst n. auto 10.
Qed.

Lemma read_depth_fields_single_Ok (root : Element) (d : Locals.depth_fields) :
  find root p_frame_z = None → read_depth_fields root = Ok d →
  ∃ elem z, find root p_document_z = Some elem ∧ np_float64 (get elem "value") = Ok z
    ∧ d = {| Locals.z_fields := np_scalar z; Locals.n_depths := 1;
             Locals.bidirection_z := false |}.
Proof.
  intros Hz Hd. unfold read_depth_fields in Hd. rewrite Hz in Hd.
  apply bind_Ok in Hd as (elem & Helem & Hd). apply dot_attrib_Ok in Helem.
  apply bind_Ok in Hd as (z & Hzv & Hd). simpl in Hd. injection Hd as <-. eauto.
Qed.

End Depths.

(** * The statements of the specification *)

(** Opens a successful call into its located document and the facts of its
    scalar part, under fixed names. *)
Ltac open_call Hr :=
  let s := fresh "s" in
  apply get_pv_metadata_Ok in Hr as (root & s & d & Hroot & Hs & Hd & ->);
  apply read_scan_fields_Ok in Hs
    as (seq & chans & period & line_period & date & last_frame & px & um
        & Hseq & Hchans & Hperiod & Hnz & Hline & Hdate & Hlast & Hduration
        & Hheight & Hum & Hpx & Hx & Hy & ->).

(** ** The locator *)

Lemma find_sequence_has (doc : Element) : find doc p_sequence ≠ None ↔ has_sequence doc.
Proof.
  unfold find, has_sequence. rewrite findall_sequence. unfold descendants. split.
  - destruct (filter _ _) as [|seq l] eqn:Hf; [done|]. intros _. exists seq.
    assert (Hin : seq ∈ filter (λ e, tag e = "Sequence") (tail (iter doc)))
      by (rewrite Hf; left).
    apply list_elem_of_filter in Hin as [Htag Hin]. auto.
  - intros (seq & Hin & Htag).
    assert (Hf : seq ∈ filter (λ e, tag e = "Sequence") (tail (iter doc)))
      by (apply list_elem_of_filter; auto).
    destruct (filter _ _); [by apply elem_of_nil in Hf | done].
Qed.





(** The loop tests the truth of the element found, which is false for an
    element without children: a document whose first [Sequence] is empty is
    passed over although it holds a [Sequence]. *)
Remark empty_sequence_passed_over :
  has_sequence doc_empty_sequence
  ∧ sample_run doc_empty_sequence
    = Raise (FileNotFoundError "No PrarieView metadata XML file found at /data/TSeries-001").
Proof.
  split; [|reflexivity]. apply find_sequence_has. discriminate.
Qed.

(** ** The scalar fields *)

Lemma state_float_Ok `{PyRuntime} (root : Element) (key : string) (v : float) :
  state_float root key = Ok v ↔
  ∃ elem, head (findall root (p_state key)) = Some elem ∧ py_float (get elem "value") = Ok v.
Proof.
  unfold state_float. rewrite bind_Ok. by setoid_rewrite getitem_Ok_0.
Qed.

Lemma state_int_Ok `{PyRuntime} (root : Element) (key : string) (v : Z) :
  state_int root key = Ok v ↔
  ∃ elem, head (findall root (p_state key)) = Some elem ∧ py_int (get elem "value") = Ok v.
Proof.
  unfold state_int. rewrite bind_Ok. by setoid_rewrite getitem_Ok_0.
Qed.

Lemma indexed_float_Ok `{PyRuntime} (root : Element) (key axis : string) (v : float) :
  indexed_float root key axis = Ok v ↔
  ∃ elem, head (findall root (p_indexed key axis)) = Some elem
    ∧ py_float (get elem "value") = Ok v.
Proof.
  unfold indexed_float. rewrite bind_Ok. by setoid_rewrite dot_attrib_Ok.
Qed.

(** The channel attributes read: those of the [File] children of the
    [Frame] children of the [Sequence] elements of the document. *)
Lemma findall_channels (root : Element) :
  findall root p_channels
  = filter (λ file, get file "channel" ≠ None)
      (frame ← (seq ← descendants "Sequence" root;
                filter (λ e, tag e = "Frame") (children seq));
       filter (λ e, tag e = "File") (children frame)).
Proof. unfold findall, p_channels. simpl. rewrite app_nil_r. reflexivity. Qed.

Lemma alternating_two (n : nat) :
  (0 < n)%nat → len_set (mjoin (replicate n [1; 2])) = 2%nat.
Proof.
  intros Hn. unfold len_set.
  assert (Hset : (list_to_set (mjoin (replicate n [1; 2])) : gset Z) = {[1; 2]}).
  { destruct n as [|n]; [lia|]. clear Hn. induction n as [|n IH]; [set_solver|].
    change (mjoin (replicate (S (S n)) [1; 2]))
      with ([1; 2] ++ mjoin (replicate (S n) [1; 2])).
    rewrite list_to_set_app_L, IH. set_solver. }
  rewrite Hset. reflexivity.
Qed.

(** C6.  In every returned record [num_channels] is the number of distinct
    channel numbers among the [channel] attributes of the files of the
    frames ([len(set(channel_list))], the attributes read as integers): a
    channel seen in many frames counts once.  When the channels read
    alternate 1, 2 any number of times (six, say) the count is 2. *)
Theorem num_channels_counts_distinct `{PyRuntime}
    (fs : FileSystem) (pvtiffile : string) (r : metainfo) :
  get_pv_metadata fs pvtiffile = Ok r →
  ∃ root chans,
    locate fs pvtiffile = Ok root
    ∧ findall root p_channels
      = filter (λ file, get file "channel" ≠ None)
          (frame ← (seq ← descendants "Sequence" root;
                    filter (λ e, tag e = "Frame") (children seq));
           filter (λ e, tag e = "File") (children frame))
    ∧ mapM (λ channel, py_int (get channel "channel")) (findall root p_channels) = Ok chans
    ∧ num_channels r = size (list_to_set chans : gset Z)
    ∧ (∀ n, (0 < n)%nat → chans = mjoin (replicate n [1; 2]) → num_channels r = 2%nat).
Proof.
  intros Hr. open_call Hr.
  exists root, chans. split; [exact Hroot|]. split; [apply findall_channels|].
  split; [exact Hchans|]. split; [reflexivity|].
  intros n Hn ->. simpl. by apply alternating_two.
Qed.

(** Twelve frames, channels 1, 2, 1, 2, ...: two channels, not twelve. *)
Lemma num_channels_counts_distinct_witness :
  ∃ r, sample_run doc_alternating_channels = Ok r
    ∧ length (findall doc_alternating_channels p_channels) = 12%nat
    ∧ num_channels r = 2%nat.
Proof.
  eexists. split; [vm_compute; reflexivity|]. split; [reflexivity|].
  destruct (num_channels_counts_distinct (H := sample_runtime)
              (folder [doc_other; doc_alternating_channels]) tif _ eq_refl)
    as (root & chans & Hroot & _ & Hchans & _ & Htwo).
  injection Hroot as <-. apply (Htwo 6%nat); [lia|].
  vm_compute in Hchans. injection Hchans as <-. reflexivity.
Defined.

(** C7.  In every returned record [frame_rate] is 1 divided by the float
    read from the [framePeriod] entry, which is then not zero, and
    [usecs_per_line] is the float read from the [scanLinePeriod] entry
    times 1e6.  A frame period of 0.02 gives a frame rate of 50.0. *)
Theorem frame_rate_is_reciprocal `{PyRuntime}
    (fs : FileSystem) (pvtiffile : string) (r : metainfo) :
  get_pv_metadata fs pvtiffile = Ok r →
  ∃ root e_frame period e_line line_period,
    locate fs pvtiffile = Ok root
    ∧ head (findall root (p_state "framePeriod")) = Some e_frame
    ∧ py_float (get e_frame "value") = Ok period
    ∧ (period =? 0)%float = false
    ∧ frame_rate r = (1 / period)%float
    ∧ head (findall root (p_state "scanLinePeriod")) = Some e_line
    ∧ py_float (get e_line "value") = Ok line_period
    ∧ usecs_per_line r = (line_period * 1e6)%float
    ∧ (period = 0.02%float → frame_rate r = 50%float).
Proof.
  intros Hr. open_call Hr.
  apply state_float_Ok in Hperiod as (e_frame & He_frame & Hperiod).
  apply state_float_Ok in Hline as (e_line & He_line & Hline).
  exists root, e_frame, period, e_line, line_period. simpl.
  repeat (split; [assumption || reflexivity|]).
  intros ->. reflexivity.
Qed.

(** The sample acquisition has [framePeriod] 0.02 and [scanLinePeriod]
    0.000063. *)
Lemma frame_rate_is_reciprocal_witness :
  ∃ r, sample_run doc_single_plane = Ok r
    ∧ frame_rate r = 50%float ∧ usecs_per_line r = (0.000063 * 1e6)%float.
Proof.
  eexists. split; [vm_compute; reflexivity|].
  destruct (frame_rate_is_reciprocal (H := sample_runtime)
              (folder [doc_other; doc_single_plane]) tif _ eq_refl)
    as (root & e_frame & period & e_line & line_period & Hroot & He_frame & Hperiod & _
        & _ & He_line & Hline & Husec & Hfifty).
  injection Hroot as <-. injection He_frame as <-. injection He_line as <-.
  vm_compute in Hperiod. vm_compute in Hline.
  injection Hperiod as <-. injection Hline as <-.
  split; [apply Hfifty; reflexivity | exact Husec].
Defined.

(** C8, as stated, also says that the pixel counts are never computed
    from the document.  They are: two acquisitions that differ only in
    their [pixelsPerLine] entry give records with different
    [height_in_pixels] (and [width_in_pixels]). *)
Lemma pixel_counts_depend_on_document :
  ¬ format_constant height_in_pixels ∧ ¬ format_constant width_in_pixels.
Proof.
  assert (H512 : ∃ r, @get_pv_metadata sample_runtime (folder [doc_single_plane]) tif = Ok r
                   ∧ height_in_pixels r = 512 ∧ width_in_pixels r = 512)
    by (eexists; repeat split; vm_compute; reflexivity).
  assert (H1024 : ∃ r, @get_pv_metadata sample_runtime (folder [doc_single_plane_1024]) tif = Ok r
                    ∧ height_in_pixels r = 1024 ∧ width_in_pixels r = 1024)
    by (eexists; repeat split; vm_compute; reflexivity).
  destruct H512 as (r & Hr & Hh & Hw), H1024 as (r' & Hr' & Hh' & Hw').
  split; intros Hconst; specialize (Hconst _ _ _ _ _ _ _ _ Hr Hr'); congruence.
Qed.

(** C8, amended.  Every returned record has [num_rois = 0],
    [bidirectional = False], equal pixel height and width, and equal
    heights and widths in microns, both [float(height_in_pixels)] times the
    X-axis [micronsPerPixel] value.  [num_rois] and [bidirectional] are
    constants of the format, the same in every record; the pixel height is
    the integer read from the document's [pixelsPerLine] entry, and the
    width is that same value. *)
Theorem square_frame_invariants :
  (∀ (rt : PyRuntime) (fs : FileSystem) (pvtiffile : string) (r : metainfo),
     get_pv_metadata fs pvtiffile = Ok r →
     num_rois r = 0%nat ∧ bidirectional r = false
     ∧ height_in_pixels r = width_in_pixels r
     ∧ height_in_um r = width_in_um r
     ∧ ∃ root um px,
         locate fs pvtiffile = Ok root
         ∧ state_int root "pixelsPerLine" = Ok (height_in_pixels r)
         ∧ indexed_float root "micronsPerPixel" "XAxis" = Ok um
         ∧ float_of_int (height_in_pixels r) = Ok px
         ∧ height_in_um r = (px * um)%float)
  ∧ format_constant num_rois
  ∧ format_constant bidirectional.
Proof.
  assert (Hinv : ∀ (rt : PyRuntime) fs pvtiffile r,
             get_pv_metadata fs pvtiffile = Ok r →
             num_rois r = 0%nat ∧ bidirectional r = false
             ∧ height_in_pixels r = width_in_pixels r
             ∧ height_in_um r = width_in_um r
             ∧ ∃ root um px,
                 locate fs pvtiffile = Ok root
                 ∧ state_int root "pixelsPerLine" = Ok (height_in_pixels r)
                 ∧ indexed_float root "micronsPerPixel" "XAxis" = Ok um
                 ∧ float_of_int (height_in_pixels r) = Ok px
                 ∧ height_in_um r = (px * um)%float).
  { intros rt fs pvtiffile r Hr. open_call Hr. simpl.
    repeat (split; [reflexivity|]). exists root, um, px. auto. }
  split; [exact Hinv|].
  split; intros rt rt' fs fs' f f' r r' Hr Hr';
    destruct (Hinv _ _ _ _ Hr) as (Hroi & Hbi & _), (Hinv _ _ _ _ Hr') as (Hroi' & Hbi' & _);
    congruence.
Qed.

(** The sample acquisition: 512 pixels per line at 1.2 microns each. *)
Lemma square_frame_invariants_witness :
  ∃ r, sample_run doc_single_plane = Ok r
    ∧ num_rois r = 0%nat ∧ bidirectional r = false
    ∧ height_in_pixels r = width_in_pixels r
    ∧ height_in_um r = width_in_um r
    ∧ height_in_pixels r = 512 ∧ height_in_um r = (512 * 1.2)%float.
Proof.
  eexists. split; [vm_compute; reflexivity|].
  destruct square_frame_invariants as (Hinv & _ & _).
  destruct (Hinv sample_runtime (folder [doc_other; doc_single_plane]) tif _ eq_refl)
    as (Hroi & Hbi & Hsquare & Hum & _).
  split; [exact Hroi|]. split; [exact Hbi|].
  split; [exact Hsquare|]. split; [exact Hum|]. split; reflexivity.
Defined.

(** C4, as stated, fails for a lookup with several matches: with two
    [framePeriod] entries the call returns a record, built from the first
    one (0.02, not 0.05). *)
Lemma ambiguous_lookup_returns_record :
  (λ elem, get elem "value") <$> findall doc_two_frame_periods (p_state "framePeriod")
  = [Some "0.02"; Some "0.05"]
  ∧ ∃ r, sample_run doc_two_frame_periods = Ok r ∧ frame_rate r = 50%float.
Proof.
  split; [reflexivity|]. eexists. split; vm_compute; reflexivity.
Qed.

Lemma head_nil_None {A} (l : list A) (x : A) : l = [] → head l = Some x → False.
Proof. intros ->. discriminate. Qed.

(** C4, amended.  For each scalar lookup (frame period, line period, pixels
    per line, microns per pixel, scan centre X and Y): when no node of the
    document matches, the lookup raises ([IndexError] where the source
    indexes [findall(...)[0]], [AttributeError] where it reads
    [find(...).attrib]) and the call returns no record; when the call
    returns a record, each of these fields was computed from the first
    matching node in document order, however many nodes match. *)
Theorem scalar_lookups_take_first_match `{PyRuntime}
    (fs : FileSystem) (pvtiffile : string) (root : Element) :
  locate fs pvtiffile = Ok root →
  (∀ p, p ∈ scalar_paths → findall root p = [] → ∃ e, get_pv_metadata fs pvtiffile = Raise e)
  ∧ (∀ key, findall root (p_state key) = [] →
       state_float root key = Raise IndexError ∧ state_int root key = Raise IndexError)
  ∧ (∀ key axis, findall root (p_indexed key axis) = [] →
       indexed_float root key axis = Raise AttributeError)
  ∧ (∀ r, get_pv_metadata fs pvtiffile = Ok r →
       ∃ e1 e2 e3 e4 e5 e6 period line_period um px,
         head (findall root (p_state "framePeriod")) = Some e1
         ∧ py_float (get e1 "value") = Ok period
         ∧ frame_rate r = (1 / period)%float
         ∧ head (findall root (p_state "scanLinePeriod")) = Some e2
         ∧ py_float (get e2 "value") = Ok line_period
         ∧ usecs_per_line r = (line_period * 1e6)%float
         ∧ head (findall root (p_state "pixelsPerLine")) = Some e3
         ∧ py_int (get e3 "value") = Ok (height_in_pixels r)
         ∧ head (findall root (p_indexed "micronsPerPixel" "XAxis")) = Some e4
         ∧ py_float (get e4 "value") = Ok um
         ∧ float_of_int (height_in_pixels r) = Ok px
         ∧ height_in_um r = (px * um)%float
         ∧ head (findall root (p_indexed "currentScanCenter" "XAxis")) = Some e5
         ∧ py_float (get e5 "value") = Ok (fieldX r)
         ∧ head (findall root (p_indexed "currentScanCenter" "YAxis")) = Some e6
         ∧ py_float (get e6 "value") = Ok (fieldY r)).
Proof.
  intros Hlocated. rename root into root0.
  assert (Hfirst : ∀ r, get_pv_metadata fs pvtiffile = Ok r →
     ∃ e1 e2 e3 e4 e5 e6 period line_period um px,
         head (findall root0 (p_state "framePeriod")) = Some e1
         ∧ py_float (get e1 "value") = Ok period
         ∧ frame_rate r = (1 / period)%float
         ∧ head (findall root0 (p_state "scanLinePeriod")) = Some e2
         ∧ py_float (get e2 "value") = Ok line_period
         ∧ usecs_per_line r = (line_period * 1e6)%float
         ∧ head (findall root0 (p_state "pixelsPerLine")) = Some e3
         ∧ py_int (get e3 "value") = Ok (height_in_pixels r)
         ∧ head (findall root0 (p_indexed "micronsPerPixel" "XAxis")) = Some e4
         ∧ py_float (get e4 "value") = Ok um
         ∧ float_of_int (height_in_pixels r) = Ok px
         ∧ height_in_um r = (px * um)%float
         ∧ head (findall root0 (p_indexed "currentScanCenter" "XAxis")) = Some e5
         ∧ py_float (get e5 "value") = Ok (fieldX r)
         ∧ head (findall root0 (p_indexed "currentScanCenter" "YAxis")) = Some e6
         ∧ py_float (get e6 "value") = Ok (fieldY r)).
  { intros r Hr. open_call Hr. assert (root = root0) as -> by congruence.
    apply state_float_Ok in Hperiod as (e1 & He1 & Hperiod).
    apply state_float_Ok in Hline as (e2 & He2 & Hline).
    apply state_int_Ok in Hheight as (e3 & He3 & Hheight).
    apply indexed_float_Ok in Hum as (e4 & He4 & Hum).
    apply indexed_float_Ok in Hx as (e5 & He5 & Hx).
    apply indexed_float_Ok in Hy as (e6 & He6 & Hy).
    exists e1, e2, e3, e4, e5, e6, period, line_period, um, px. simpl in *.
    repeat (split; [assumption || reflexivity|]). assumption. }
  split; [|split; [|split]].
  - intros p Hp Hnil. destruct (get_pv_metadata fs pvtiffile) as [r|e] eqn:Hr; [|eauto].
    exfalso. destruct (Hfirst r eq_refl)
      as (e1 & e2 & e3 & e4 & e5 & e6 & ? & ? & ? & ? & He1 & _ & _ & He2 & _ & _ & He3 & _
          & He4 & _ & _ & _ & He5 & _ & He6 & _).
    unfold scalar_paths in Hp.
    repeat (apply elem_of_cons in Hp as [->|Hp]; [by eapply head_nil_None|]).
    by apply elem_of_nil in Hp.
  - intros key Hnil. unfold state_float, state_int. rewrite Hnil. split; reflexivity.
  - intros key axis Hnil. unfold indexed_float, find. rewrite Hnil. reflexivity.
  - exact Hfirst.
Qed.

(** One document without a [framePeriod] entry, one with two. *)
Lemma scalar_lookups_take_first_match_witness :
  sample_run doc_no_frame_period = Raise IndexError
  ∧ ∃ r e1, sample_run doc_two_frame_periods = Ok r
      ∧ findall doc_two_frame_periods (p_state "framePeriod")
        = [e1; state_value "framePeriod" "0.05"]
      ∧ get e1 "value" = Some "0.02"
      ∧ frame_rate r = (1 / 0.02)%float.
Proof.
  split.
  - destruct (scalar_lookups_take_first_match (H := sample_runtime)
                (folder [doc_other; doc_no_frame_period]) tif doc_no_frame_period eq_refl)
      as (Hnone & _).
    destruct (Hnone (p_state "framePeriod")) as [e He]; [left | reflexivity |].
    unfold sample_run. rewrite He. vm_compute in He. symmetry. exact He.
  - eexists. eexists. split; [vm_compute; reflexivity|]. split; [reflexivity|].
    split; [reflexivity|].
    destruct (scalar_lookups_take_first_match (H := sample_runtime)
                (folder [doc_other; doc_two_frame_periods]) tif doc_two_frame_periods eq_refl)
      as (_ & _ & _ & Hfirst).
    destruct (Hfirst _ eq_refl)
      as (e1 & e2 & e3 & e4 & e5 & e6 & period & ? & ? & ? & He1 & Hperiod & Hrate & _).
    injection He1 as <-. vm_compute in Hperiod. injection Hperiod as <-. exact Hrate.
Defined.

(** ** The depths *)

(** C3.  When no frame of cycle 1 holds a Z-axis [SubindexedValues] node in
    its state block, every returned record has [num_planes = 1],
    [bidirectional_z = False] and a [fieldZ] of size 1: the one value
    [np.float64] makes of the [value] attribute of the first node of the
    document-wide path [p_document_z], which is not an entry of a frame of
    cycle 1 (there are none).  The call does return that record once the
    scalar part has succeeded and the entry is there and readable. *)
Theorem single_plane_reads_document_z `{PyRuntime}
    (fs : FileSystem) (pvtiffile : string) (root : Element) :
  locate fs pvtiffile = Ok root →
  find root p_frame_z = None →
  (∀ r, get_pv_metadata fs pvtiffile = Ok r →
     num_planes r = 1%nat ∧ bidirectional_z r = false
     ∧ ∃ elem z,
         find root p_document_z = Some elem
         ∧ np_float64 (get elem "value") = Ok z
         ∧ fieldZ r = np_scalar z
         ∧ np_size (fieldZ r) = Ok 1%nat
         ∧ ∀ zaxis, zaxis ∈ findall root p_frame_z → elem ∉ children zaxis)
  ∧ (∀ s elem z,
       read_scan_fields root = Ok s →
       find root p_document_z = Some elem →
       np_float64 (get elem "value") = Ok z →
       get_pv_metadata fs pvtiffile
       = Ok (make_metainfo s {| Locals.z_fields := np_scalar z; Locals.n_depths := 1;
                                Locals.bidirection_z := false |})).
Proof.
  intros Hlocated Hflat. split.
  - intros r Hr. apply get_pv_metadata_Ok in Hr as (root' & s & d & Hroot & _ & Hd & ->).
    assert (root' = root) as -> by congruence.
    apply (read_depth_fields_single_Ok _ _ Hflat) in Hd as (elem & z & Helem & Hz & ->).
    simpl. split; [reflexivity|]. split; [reflexivity|]. exists elem, z.
    repeat (split; [assumption || reflexivity|]).
    intros zaxis Hin. apply find_None in Hflat. rewrite Hflat in Hin.
    by apply elem_of_nil in Hin.
  - intros s elem z Hs Helem Hz. rewrite (get_pv_metadata_located _ _ _ Hlocated), Hs. simpl.
    unfold read_depth_fields. rewrite Hflat, Helem. simpl. rewrite Hz. reflexivity.
Qed.

(** The sample single-plane acquisition: Z is 100.5, from the state block
    of the document. *)
Lemma single_plane_reads_document_z_witness :
  ∃ r, sample_run doc_single_plane = Ok r
    ∧ num_planes r = 1%nat ∧ bidirectional_z r = false ∧ fieldZ r = np_scalar 100.5.
Proof.
  eexists. split; [vm_compute; reflexivity|].
  destruct (single_plane_reads_document_z (H := sample_runtime)
              (folder [doc_other; doc_single_plane]) tif doc_single_plane eq_refl eq_refl)
    as (Hrecord & _).
  destruct (Hrecord _ eq_refl) as (Hplanes & Hbi & elem & z & Helem & Hz & Hfield & _).
  split; [exact Hplanes|]. split; [exact Hbi|].
  injection Helem as <-. vm_compute in Hz. injection Hz as <-. exact Hfield.
Defined.

Lemma findall_subindex_by_frame (root : Element) (subindex : string) :
  findall root (p_subindex subindex)
  = frame ← findall root p_cycle1_frames; frame_z_values subindex frame.
Proof.
  change (p_subindex subindex) with
    (p_cycle1_frames ++ [sel_child "PVStateShard"; sel_child "PVStateValue"] ++ z_axis_tail
       ++ [sel_child "SubindexedValue"; sel_attr_eq "subindex" subindex]).
  apply findall_app_bind.
Qed.

(** C2.  In a multi-plane document (some frame of cycle 1 holds a Z-axis
    node) [num_planes] is the number of distinct integers among the [index]
    attributes of the frames of cycle 1.  With exactly one Z controller
    entry at frame index 1 of cycle 1, [fieldZ] lists the [value] attribute
    of every [SubindexedValue] with subindex 0, frame after frame of cycle 1
    in document order, and the call raises the depth-count assertion unless
    that list is as long as [num_planes]. *)
Theorem one_controller_depths `{PyRuntime}
    (fs : FileSystem) (pvtiffile : string) (root zaxis : Element) :
  locate fs pvtiffile = Ok root →
  find root p_frame_z = Some zaxis →
  (∀ r, get_pv_metadata fs pvtiffile = Ok r →
     ∃ pl, mapM (λ plane, py_int (get plane "index")) (findall root p_cycle1_frames) = Ok pl
       ∧ num_planes r = size (list_to_set pl : gset Z))
  ∧ (length (findall root p_z_controllers) = 1%nat →
     let zs := (λ z, get z "value") <$> findall root (p_subindex "0") in
     findall root (p_subindex "0")
     = (frame ← findall root p_cycle1_frames; frame_z_values "0" frame)
     ∧ (∀ r, get_pv_metadata fs pvtiffile = Ok r →
          fieldZ r = str_list zs ∧ length zs = num_planes r)
     ∧ (∀ s seq pl,
          read_scan_fields root = Ok s →
          find root p_sequence = Some seq →
          mapM (λ plane, py_int (get plane "index")) (findall root p_cycle1_frames) = Ok pl →
          get_pv_metadata fs pvtiffile
          = if bool_decide (length zs = size (list_to_set pl : gset Z)) then
              Ok (make_metainfo s
                    {| Locals.z_fields := str_list zs;
                       Locals.n_depths := size (list_to_set pl : gset Z);
                       Locals.bidirection_z :=
                         bool_decide (get seq "bidirectionalZ" = Some "True") |})
            else Raise (AssertionError "Number of z fields does not match number of depths."))).
Proof.
  intros Hlocated Hz. split.
  - intros r Hr. apply get_pv_metadata_Ok in Hr as (root' & s & d & Hroot & _ & Hd & ->).
    assert (root' = root) as -> by congruence.
    apply (read_depth_fields_frames_Ok _ _ _ Hz) in Hd as (seq & pl & _ & Hpl & Hn & _).
    exists pl. split; [exact Hpl | exact Hn].
  - intros Hone zs. split; [apply findall_subindex_by_frame|]. split.
    + intros r Hr. apply get_pv_metadata_Ok in Hr as (root' & s & d & Hroot & _ & Hd & ->).
      assert (root' = root) as -> by congruence.
      apply (read_depth_fields_frames_Ok _ _ _ Hz) in Hd
        as (seq & pl & _ & _ & Hn & _ & Hlen & Hfield).
      rewrite Hone, (bool_decide_false (1 < 1)%nat) in Hfield by lia.
      injection Hfield as Hfield.
      simpl. rewrite <- Hfield in Hlen |- *. split; [reflexivity|].
      simpl in Hlen. injection Hlen as Hlen. rewrite Hn. exact Hlen.
    + intros s seq pl Hs Hseq Hpl.
      rewrite (get_pv_metadata_located _ _ _ Hlocated), Hs. simpl.
      rewrite (read_depth_fields_frames _ _ _ _ Hz Hseq Hpl).
      rewrite Hone, (bool_decide_false (1 < 1)%nat) by lia. simpl. unfold len_set.
      fold zs. case_bool_decide; reflexivity.
Qed.

(** Three planes read from three frames; and four Z entries against three
    distinct frame indices. *)
Lemma one_controller_depths_witness :
  (∃ r, sample_run doc_one_controller = Ok r
     ∧ num_planes r = 3%nat
     ∧ fieldZ r = str_list [Some "10"; Some "20"; Some "30"])
  ∧ sample_run doc_depth_mismatch
    = Raise (AssertionError "Number of z fields does not match number of depths.").
Proof.
  split.
  - eexists. split; [vm_compute; reflexivity|].
    destruct (one_controller_depths (H := sample_runtime)
                (folder [doc_other; doc_one_controller]) tif doc_one_controller _
                eq_refl eq_refl) as (Hplanes & Hone).
    destruct (Hplanes _ eq_refl) as (pl & Hpl & Hn).
    destruct (Hone eq_refl) as (_ & Hfield & _).
    destruct (Hfield _ eq_refl) as (Hz & _).
    split; [|exact Hz]. vm_compute in Hpl. injection Hpl as <-. exact Hn.
  - destruct (one_controller_depths (H := sample_runtime)
                (folder [doc_other; doc_depth_mismatch]) tif doc_depth_mismatch _
                eq_refl eq_refl) as (_ & Hone).
    destruct (Hone eq_refl) as (_ & _ & Hrun).
    exact (Hrun _ _ _ eq_refl eq_refl eq_refl).
Defined.

Lemma sum_fmap {A} (f : A → bool) (l : list A) :
  sum (f <$> l) = length (filter (λ x, f x = true) l).
Proof.
  induction l as [|x l IH]; [reflexivity|].
  rewrite fmap_cons, filter_cons. simpl. rewrite IH.
  destruct (f x); [rewrite decide_True by done | rewrite decide_False by done]; reflexivity.
Qed.

Lemma findall_subindex_plain `{PyRuntime} (root : Element) (x : option string) :
  holds quote (default "None" x) = false →
  findall_subindex root x
  = Ok (frame ← findall root p_cycle1_frames; frame_z_values (default "None" x) frame).
Proof.
  intros Hplain. unfold findall_subindex. rewrite Hplain.
  rewrite findall_subindex_by_frame. reflexivity.
Qed.

(** C1.  In a multi-plane document with more than one Z controller entry
    at frame index 1 of cycle 1, once the steps before have succeeded:
    - the list collected for a controller, named by its [subindex] text,
      holds the float values of the [SubindexedValue] entries with that
      subindex, frame after frame of cycle 1 (the text is spliced between
      quotes, so this is for a text that holds no quote);
    - a controller varies exactly when two values of its list differ;
    - if exactly one controller varies, [fieldZ] is its list (and the depth
      count is then checked against its length);
    - otherwise the call raises the disambiguation assertion and returns no
      record. *)
Theorem several_controllers_disambiguation `{PyRuntime}
    (fs : FileSystem) (pvtiffile : string) (root zaxis seq : Element)
    (s : Locals.scan_fields) (pl : list Z) (zr : list (list float)) :
  locate fs pvtiffile = Ok root →
  find root p_frame_z = Some zaxis →
  (1 < length (findall root p_z_controllers))%nat →
  read_scan_fields root = Ok s →
  find root p_sequence = Some seq →
  mapM (λ plane, py_int (get plane "index")) (findall root p_cycle1_frames) = Ok pl →
  z_repeats root = Ok zr →
  Forall2 (λ controller zc,
             let subindex := default "None" (get controller "subindex") in
             holds quote subindex = false →
             mapM (λ z, py_float (get z "value"))
               (frame ← findall root p_cycle1_frames; frame_z_values subindex frame)
             = Ok zc)
          (findall root p_z_controller_children) zr
  ∧ (∀ zc, controller_varies zc = Ok (varies zc)
           ∧ (varies zc = true ↔ ∃ x y, x ∈ zc ∧ y ∈ zc ∧ (x =? y)%float = false))
  ∧ (length (filter (λ zc, varies zc = true) zr) = 1%nat →
     ∃ i zc, zr !! i = Some zc ∧ varies zc = true
       ∧ (∀ j zc', zr !! j = Some zc' → varies zc' = true → j = i)
       ∧ get_pv_metadata fs pvtiffile
         = if bool_decide (length zc = size (list_to_set pl : gset Z)) then
             Ok (make_metainfo s
                   {| Locals.z_fields := float_list zc;
                      Locals.n_depths := size (list_to_set pl : gset Z);
                      Locals.bidirection_z :=
                        bool_decide (get seq "bidirectionalZ" = Some "True") |})
           else Raise (AssertionError "Number of z fields does not match number of depths."))
  ∧ (length (filter (λ zc, varies zc = true) zr) ≠ 1%nat →
     get_pv_metadata fs pvtiffile
     = Raise (AssertionError "Multiple controllers changing z depth is not supported")).
Proof.
  intros Hlocated Hz Hmany Hs Hseq Hpl Hzr.
  assert (Hrun : get_pv_metadata fs pvtiffile
    = z_fields ← several_controllers root;
      n ← len z_fields;
      if bool_decide (n = len_set pl) then
        Ok (make_metainfo s
              {| Locals.z_fields := z_fields; Locals.n_depths := len_set pl;
                 Locals.bidirection_z := bool_decide (get seq "bidirectionalZ" = Some "True") |})
      else Raise (AssertionError "Number of z fields does not match number of depths.")).
  { rewrite (get_pv_metadata_located _ _ _ Hlocated), Hs. simpl.
    rewrite (read_depth_fields_frames _ _ _ _ Hz Hseq Hpl).
    rewrite (bool_decide_true (1 < _)%nat) by exact Hmany.
    destruct (several_controllers root) as [z|e]; [|reflexivity]. simpl.
    destruct (len z) as [n|e]; [|reflexivity]. simpl. case_bool_decide; reflexivity. }
  split; [|split; [|split]].
  - unfold z_repeats in Hzr. apply mapM_Ok in Hzr.
    eapply Forall2_impl; [exact Hzr|]. intros controller zc Hzc subindex Hplain.
    cbv beta in Hzc. rewrite findall_subindex_plain in Hzc by exact Hplain. exact Hzc.
  - intros zc. split; [apply controller_varies_eq | apply varies_spec].
  - rewrite <- sum_fmap. intros Hone.
    destruct (several_controllers_one _ _ Hzr Hone) as (i & zc & Hi & Hv & Huniq & Hsev).
    exists i, zc. repeat (split; [assumption|]).
    rewrite Hrun, Hsev. reflexivity.
  - rewrite <- sum_fmap. intros Hother.
    rewrite Hrun, (several_controllers_other _ _ Hzr Hother). reflexivity.
Qed.

(** Of two controllers, the second moves; both move; neither moves. *)
Lemma several_controllers_disambiguation_witness :
  (∃ r, sample_run doc_two_controllers = Ok r ∧ fieldZ r = float_list [10; 20; 30]%float)
  ∧ sample_run doc_both_vary
    = Raise (AssertionError "Multiple controllers changing z depth is not supported")
  ∧ sample_run doc_none_varies
    = Raise (AssertionError "Multiple controllers changing z depth is not supported").
Proof.
  split; [|split].
  - destruct (several_controllers_disambiguation (H := sample_runtime)
                (folder [doc_other; doc_two_controllers]) tif doc_two_controllers _ _ _ _ _
                eq_refl eq_refl ltac:(vm_compute; lia) eq_refl eq_refl eq_refl eq_refl)
      as (_ & _ & Hone & _).
    destruct Hone as (i & zc & Hi & Hv & _ & Hrun); [vm_compute; reflexivity|].
    destruct i as [|[|[|i]]]; vm_compute in Hi; try discriminate; injection Hi as <-;
      [vm_compute in Hv; discriminate|].
    eexists. split; [exact Hrun | reflexivity].
  - destruct (several_controllers_disambiguation (H := sample_runtime)
                (folder [doc_other; doc_both_vary]) tif doc_both_vary _ _ _ _ _
                eq_refl eq_refl ltac:(vm_compute; lia) eq_refl eq_refl eq_refl eq_refl)
      as (_ & _ & _ & Hother).
    apply Hother. vm_compute. lia.
  - destruct (several_controllers_disambiguation (H := sample_runtime)
                (folder [doc_other; doc_none_varies]) tif doc_none_varies _ _ _ _ _
                eq_refl eq_refl ltac:(vm_compute; lia) eq_refl eq_refl eq_refl eq_refl)
      as (_ & _ & _ & Hother).
    apply Hother. vm_compute. lia.
Defined.

Lemma several_controllers_Ok `{PyRuntime} (root : Element) (z : z_value) :
  several_controllers root = Ok z →
  ∃ zr i zc, z_repeats root = Ok zr ∧ zr !! i = Some zc ∧ varies zc = true
    ∧ z = float_list zc.
Proof.
  intros Hz. destruct (z_repeats root) as [zr|e] eqn:Hzr;
    [|unfold several_controllers in Hz; rewrite Hzr in Hz; discriminate].
  destruct (decide (sum (varies <$> zr) = 1%nat)) as [Hone|Hother].
  - destruct (several_controllers_one _ _ Hzr Hone) as (i & zc & Hi & Hv & _ & Hsev).
    exists zr, i, zc. repeat (split; [done|]). congruence.
  - rewrite (several_controllers_other _ _ Hzr Hother) in Hz. discriminate.
Qed.

(** C9.  The shape of [fieldZ] in a returned record follows the branch
    taken.  In a single-plane document it is one [numpy.float64] scalar,
    not a list ([len] of it raises).  In a multi-plane document with exactly
    one Z controller entry it is the list of the [value] attributes as
    [attrib.get] returns them, texts with no numeric conversion.  With more
    than one entry it is a list of floats, one of the collected lists. *)
Theorem fieldZ_shape `{PyRuntime}
    (fs : FileSystem) (pvtiffile : string) (root : Element) (r : metainfo) :
  locate fs pvtiffile = Ok root →
  get_pv_metadata fs pvtiffile = Ok r →
  (find root p_frame_z = None →
     ∃ z, fieldZ r = np_scalar z ∧ len (fieldZ r) = Raise TypeError)
  ∧ (find root p_frame_z ≠ None →
     (length (findall root p_z_controllers) = 1%nat →
        fieldZ r = str_list ((λ z, get z "value") <$> findall root (p_subindex "0")))
     ∧ ((1 < length (findall root p_z_controllers))%nat →
        ∃ zr i zc, z_repeats root = Ok zr ∧ zr !! i = Some zc
          ∧ fieldZ r = float_list zc)).
Proof.
  intros Hlocated Hr.
  apply get_pv_metadata_Ok in Hr as (root' & s & d & Hroot & _ & Hd & ->).
  assert (root' = root) as -> by congruence. simpl. split.
  - intros Hflat.
    apply (read_depth_fields_single_Ok _ _ Hflat) in Hd as (elem & z & _ & _ & ->).
    exists z. split; reflexivity.
  - intros Hframes. destruct (find root p_frame_z) as [zaxis|] eqn:Hz; [|done].
    apply (read_depth_fields_frames_Ok _ _ _ Hz) in Hd as (seq & pl & _ & _ & _ & _ & _ & Hfield).
    split.
    + intros Hone. rewrite Hone, (bool_decide_false (1 < 1)%nat) in Hfield by lia.
      injection Hfield as <-. reflexivity.
    + intros Hmany. rewrite (bool_decide_true (1 < _)%nat) in Hfield by exact Hmany.
      apply several_controllers_Ok in Hfield as (zr & i & zc & Hzr & Hi & _ & ->).
      exists zr, i, zc. done.
Qed.

(** One record of each shape. *)
Lemma fieldZ_shape_witness :
  (∃ r, sample_run doc_single_plane = Ok r ∧ fieldZ r = np_scalar 100.5)
  ∧ (∃ r, sample_run doc_one_controller = Ok r
       ∧ fieldZ r = str_list [Some "10"; Some "20"; Some "30"])
  ∧ (∃ r, sample_run doc_two_controllers = Ok r
       ∧ fieldZ r = float_list [10; 20; 30]%float).
Proof.
  split; [|split]; (eexists; split; [vm_compute; reflexivity|]).
  - destruct (fieldZ_shape (H := sample_runtime) (folder [doc_other; doc_single_plane]) tif
                doc_single_plane _ eq_refl eq_refl) as (Hscalar & _).
    destruct (Hscalar eq_refl) as (z & Hz & _).
    transitivity (np_scalar z); [exact Hz | vm_compute in Hz; symmetry; exact Hz].
  - destruct (fieldZ_shape (H := sample_runtime) (folder [doc_other; doc_one_controller]) tif
                doc_one_controller _ eq_refl eq_refl) as (_ & Hlists).
    destruct Hlists as (Hstr & _); [discriminate|]. exact (Hstr eq_refl).
  - destruct (fieldZ_shape (H := sample_runtime) (folder [doc_other; doc_two_controllers]) tif
                doc_two_controllers _ eq_refl eq_refl) as (_ & Hlists).
    destruct Hlists as (_ & Hfloat); [discriminate|].
    destruct Hfloat as (zr & i & zc & _ & _ & Hz); [vm_compute; lia|].
    transitivity (float_list zc); [exact Hz | vm_compute in Hz; symmetry; exact Hz].
Defined.

(** C10, as stated, fails: a child of the Z node of frame index 1 whose
    subindex no per-frame entry carries gets an empty list, and the call
    still returns a record; no [IndexError] is raised. *)
Lemma stray_controller_raises_nothing :
  findall doc_stray_child (p_subindex "7") = []
  ∧ @z_repeats sample_runtime doc_stray_child
    = Ok [[75; 75; 75]; [10; 20; 30]; []]%float
  ∧ ∃ r, sample_run doc_stray_child = Ok r ∧ fieldZ r = float_list [10; 20; 30]%float.
Proof.
  split; [reflexivity|]. split; [vm_compute; reflexivity|].
  eexists. split; vm_compute; reflexivity.
Qed.

(** C10, amended.  The test of whether a controller varies reads the first
    element of its list inside the scan of that list, once per element: on
    an empty list it is never read, the controller counts as not varying,
    and the test raises nothing on any list.  Once the lists are collected,
    the branch needs no precondition on the controllers: when exactly one
    list varies it yields that list, the list of the single varying
    controller (never an empty one), and otherwise it raises the
    disambiguation assertion. *)
Theorem controller_varies_total :
  controller_varies [] = Ok false
  ∧ (∀ zc, controller_varies zc = Ok (varies zc))
  ∧ (∀ (rt : PyRuntime) (root : Element) (zr : list (list float)),
       z_repeats root = Ok zr →
       (length (filter (λ zc, varies zc = true) zr) = 1%nat
        ∧ ∃ i zc, zr !! i = Some zc ∧ varies zc = true ∧ zc ≠ []
            ∧ (∀ j zc', zr !! j = Some zc' → varies zc' = true → j = i)
            ∧ several_controllers root = Ok (float_list zc))
       ∨ (length (filter (λ zc, varies zc = true) zr) ≠ 1%nat
          ∧ several_controllers root
            = Raise (AssertionError "Multiple controllers changing z depth is not supported"))).
Proof.
  split; [reflexivity|]. split; [exact controller_varies_eq|].
  intros rt root zr Hzr. rewrite <- sum_fmap.
  destruct (decide (sum (varies <$> zr) = 1%nat)) as [Hone|Hother].
  - left. split; [exact Hone|].
    destruct (several_controllers_one _ _ Hzr Hone) as (i & zc & Hi & Hv & Huniq & Hsev).
    exists i, zc. repeat (split; [assumption|]). split; [|split; assumption].
    intros ->. discriminate.
  - right. split; [exact Hother|]. by apply several_controllers_other with zr.
Qed.

(** The document with the stray child: its empty list does not vary, and
    the list of the second controller, the only one that moves, is
    returned. *)
Lemma controller_varies_total_witness :
  @several_controllers sample_runtime doc_stray_child = Ok (float_list [10; 20; 30]%float).
Proof.
  destruct controller_varies_total as (_ & _ & Hbranch).
  destruct (Hbranch sample_runtime doc_stray_child _ eq_refl)
    as [(_ & i & zc & _ & _ & _ & _ & Hsev)|(_ & Hsev)].
  - rewrite Hsev. vm_compute in Hsev. symmetry. exact Hsev.
  - vm_compute in Hsev. discriminate.
Defined.

(** * Further properties of the reader *)

(** ** Which file is read (lines 32-42) *)

Lemma truth_false (x : option Element) :
  truth x = false ↔ ∀ elem, x = Some elem → children elem = [].
Proof.
  destruct x as [elem|]; simpl.
  - destruct (children elem) eqn:Hc; split; try done.
    + intros _ e [= <-]. exact Hc.
    + intros Hall. specialize (Hall elem eq_refl). congruence.
  - split; [intros _ e; discriminate | reflexivity].
Qed.

Lemma truth_true (x : option Element) :
  truth x = true ↔ ∃ elem, x = Some elem ∧ children elem ≠ [].
Proof.
  split; [apply truth_Some|]. intros (elem & -> & Hc). simpl.
  destruct (children elem); done.
Qed.

(** X1.  The locator hands over the first XML file, in the order the
    directory yields them, whose first [Sequence] element (in document
    order) has at least one child; every file before it was parsed and
    either has no [Sequence] or has a first [Sequence] without children. *)
Theorem locate_first_with_filled_sequence `{PyRuntime}
    (fs : FileSystem) (pvtiffile : string) (root : Element) :
  locate fs pvtiffile = Ok root ↔
  ∃ before after,
    glob_xml fs (parent fs pvtiffile) = (Ok <$> before) ++ Ok root :: after
    ∧ Forall (λ doc, ∀ seq, find doc p_sequence = Some seq → children seq = []) before
    ∧ ∃ seq, find root p_sequence = Some seq ∧ children seq ≠ [].
Proof.
  unfold locate. rewrite first_metadata_Ok.
  split; intros (before & after & Heq & Hbefore & Hroot); exists before, after;
    (split; [exact Heq|]); split.
  - eapply Forall_impl; [exact Hbefore|]. intros doc. apply truth_false.
  - by apply truth_true.
  - eapply Forall_impl; [exact Hbefore|]. intros doc. apply truth_false.
  - by apply truth_true.
Qed.

(** X2.  In a directory whose XML files are all parsed, the locator raises
    [FileNotFoundError] exactly when in every file the first [Sequence], if
    there is one, has no children, and the call then raises the same error:
    a file that holds only an empty [Sequence] first is treated as no
    metadata file. *)
Theorem not_found_iff_no_filled_sequence `{PyRuntime}
    (fs : FileSystem) (pvtiffile : string) :
  let dir := parent fs pvtiffile in
  let not_found :=
    FileNotFoundError ("No PrarieView metadata XML file found at " +:+ dir) in
  (∀ parsed, parsed ∈ glob_xml fs dir → ∃ doc, parsed = Ok doc) →
  ((∀ doc, Ok doc ∈ glob_xml fs dir →
      ∀ seq, find doc p_sequence = Some seq → children seq = [])
   ↔ locate fs pvtiffile = Raise not_found)
  ∧ (locate fs pvtiffile = Raise not_found →
     get_pv_metadata fs pvtiffile = Raise not_found).
Proof.
  intros dir not_found Hparsed.
  assert (Hcases : ∀ l, (∀ parsed, parsed ∈ l → ∃ doc, parsed = Ok doc) →
                        (∀ doc, Ok doc ∈ l → truth (find doc p_sequence) = false)
                        ∨ ∃ root, first_metadata dir l = Ok root).
  { induction l as [|parsed l IH]; intros Hl;
      [left; intros doc Hdoc; by apply elem_of_nil in Hdoc|].
    destruct (Hl parsed) as [doc ->]; [left|].
    simpl. destruct (truth (find doc p_sequence)) eqn:Ht; [right; eauto|].
    destruct IH as [Hall|Hsome]; [intros x Hx; apply Hl; by right | left | right; exact Hsome].
    intros d Hd. apply elem_of_cons in Hd as [[= ->]|Hd]; [exact Ht | by apply Hall]. }
  split.
  - split.
    + intros Hall. apply first_metadata_Raise. intros parsed Hin.
      destruct (Hparsed parsed Hin) as [doc ->]. exists doc. split; [reflexivity|].
      apply truth_false. by apply Hall.
    + intros Hraise doc Hdoc. apply truth_false.
      destruct (Hcases (glob_xml fs dir) Hparsed) as [Hall|[root Hroot]]; [by apply Hall|].
      unfold locate in Hraise. subst dir. rewrite Hroot in Hraise. discriminate.
  - intros Hraise. unfold get_pv_metadata. rewrite Hraise. reflexivity.
Qed.

(** A directory whose metadata file has an empty [Sequence]. *)
Lemma not_found_iff_no_filled_sequence_witness :
  has_sequence doc_empty_sequence
  ∧ @get_pv_metadata sample_runtime (folder [doc_other; doc_empty_sequence]) tif
    = Raise (FileNotFoundError "No PrarieView metadata XML file found at /data/TSeries-001").
Proof.
  split; [apply find_sequence_has; discriminate|].
  destruct (not_found_iff_no_filled_sequence (H := sample_runtime)
              (folder [doc_other; doc_empty_sequence]) tif) as (Hiff & Hcall).
  - intros parsed Hin. apply elem_of_cons in Hin as [->|Hin]; [eauto|].
    apply list_elem_of_singleton in Hin as ->. eauto.
  - apply Hcall, Hiff. intros doc Hdoc seq Hseq.
    apply elem_of_cons in Hdoc as [[= ->]|Hdoc]; [discriminate|].
    apply list_elem_of_singleton in Hdoc. injection Hdoc as ->.
    vm_compute in Hseq. injection Hseq as <-. reflexivity.
Defined.

(** ** The remaining fields of the record (lines 44-99, 165-188) *)

Lemma findall_frames (root : Element) :
  findall root p_frames
  = seq ← descendants "Sequence" root; filter (λ e, tag e = "Frame") (children seq).
Proof. unfold findall, p_frames. simpl. rewrite app_nil_r. reflexivity. Qed.

(** X3.  In every returned record: [num_fields] is 1 and [x_pos], [y_pos],
    [z_pos] are [None]; [recording_time] is the [time] attribute of the
    first [Sequence] of cycle 1 (or [None] without one); [scan_datetime] is
    the parsed [date] attribute of the root; [num_frames] counts the [Frame]
    children of all [Sequence] elements, of every cycle, and is at least 1;
    [scan_duration] is the float read from the [relativeTime] attribute of
    the last of these frames in document order. *)
Theorem record_timing_fields `{PyRuntime}
    (fs : FileSystem) (pvtiffile : string) (r : metainfo) :
  get_pv_metadata fs pvtiffile = Ok r →
  ∃ root seq last_frame,
    locate fs pvtiffile = Ok root
    ∧ num_fields r = 1%nat ∧ x_pos r = None ∧ y_pos r = None ∧ z_pos r = None
    ∧ find root p_cycle1 = Some seq
    ∧ recording_time r = get seq "time"
    ∧ py_strptime (get root "date") = Ok (scan_datetime r)
    ∧ num_frames r
      = length (seq ← descendants "Sequence" root;
                filter (λ e, tag e = "Frame") (children seq))
    ∧ (0 < num_frames r)%nat
    ∧ last (findall root p_frames) = Some last_frame
    ∧ py_float (get last_frame "relativeTime") = Ok (scan_duration r).
Proof.
  intros Hr. open_call Hr. exists root, seq, last_frame. simpl.
  repeat (split; [assumption || reflexivity|]).
  split; [by rewrite findall_frames|]. split; [|split; assumption].
  destruct (findall root p_frames); [discriminate | simpl; lia].
Qed.

(** Two cycles of three frames each. *)
Lemma record_timing_fields_witness :
  ∃ r, sample_run doc_one_controller = Ok r
    ∧ num_frames r = 6%nat
    ∧ scan_duration r = 0.1%float
    ∧ recording_time r = Some "14:03:27.1234567"
    ∧ scan_datetime r
      = {| year := 2022; month := 3; day := 9; hour := 14; minute := 3; second := 27 |}.
Proof.
  eexists. split; [vm_compute; reflexivity|].
  destruct (record_timing_fields (H := sample_runtime)
              (folder [doc_other; doc_one_controller]) tif _ eq_refl)
    as (root & seq & last_frame & Hroot & _ & _ & _ & _ & Hseq & Htime & Hdate & Hn & _
        & Hlast & Hduration).
  injection Hroot as <-. vm_compute in Hseq. injection Hseq as <-.
  vm_compute in Hlast. injection Hlast as <-.
  split; [exact Hn|].
  split; [reflexivity|]. split; [exact Htime | reflexivity].
Defined.

(** ** Failures of the scalar part *)

(** X4.  A located document with no [Sequence] whose [cycle] attribute is
    the text ["1"] makes the call raise [AttributeError], whatever else the
    document holds: the start time is read first, from [None]. *)
Theorem no_first_cycle_attribute_error `{PyRuntime}
    (fs : FileSystem) (pvtiffile : string) (root : Element) :
  locate fs pvtiffile = Ok root →
  find root p_cycle1 = None →
  get_pv_metadata fs pvtiffile = Raise AttributeError.
Proof.
  intros Hroot Hnone. rewrite (get_pv_metadata_located _ _ _ Hroot).
  unfold read_scan_fields. rewrite Hnone. reflexivity.
Qed.

Lemma no_first_cycle_attribute_error_witness :
  sample_run doc_no_first_cycle = Raise AttributeError.
Proof.
  exact (no_first_cycle_attribute_error (H := sample_runtime)
           (folder [doc_other; doc_no_first_cycle]) tif doc_no_first_cycle eq_refl eq_refl).
Defined.

(** X5.  When the first [framePeriod] entry reads as a float equal to zero
    (0.0 or -0.0), and the start time and the channels before it were read,
    the call raises [ZeroDivisionError]. *)
Theorem zero_frame_period_raises `{PyRuntime}
    (fs : FileSystem) (pvtiffile : string) (root seq : Element)
    (chans : list Z) (period : float) :
  locate fs pvtiffile = Ok root →
  find root p_cycle1 = Some seq →
  channel_list root = Ok chans →
  state_float root "framePeriod" = Ok period →
  (period =? 0)%float = true →
  get_pv_metadata fs pvtiffile = Raise ZeroDivisionError.
Proof.
  intros Hroot Hseq Hchans Hperiod Hzero. rewrite (get_pv_metadata_located _ _ _ Hroot).
  unfold read_scan_fields. rewrite Hseq. simpl. rewrite Hchans. simpl. rewrite Hperiod. simpl.
  unfold truediv. rewrite Hzero. reflexivity.
Qed.

Lemma zero_frame_period_raises_witness :
  sample_run doc_zero_period = Raise ZeroDivisionError.
Proof.
  exact (zero_frame_period_raises (H := sample_runtime)
           (folder [doc_other; doc_zero_period]) tif doc_zero_period _ _ _
           eq_refl eq_refl eq_refl eq_refl eq_refl).
Defined.

(** X6.  A located document without any [Frame] under a [Sequence] gives no
    record; when the steps before the duration succeed (the channel list is
    then empty) the call raises [IndexError], from indexing the last
    frame. *)
Theorem no_frame_index_error `{PyRuntime}
    (fs : FileSystem) (pvtiffile : string) (root : Element) :
  locate fs pvtiffile = Ok root →
  findall root p_frames = [] →
  (∀ r, get_pv_metadata fs pvtiffile ≠ Ok r)
  ∧ channel_list root = Ok []
  ∧ (∀ seq period line_period date,
       find root p_cycle1 = Some seq →
       state_float root "framePeriod" = Ok period →
       (period =? 0)%float = false →
       state_float root "scanLinePeriod" = Ok line_period →
       py_strptime (get root "date") = Ok date →
       get_pv_metadata fs pvtiffile = Raise IndexError).
Proof.
  intros Hroot Hnone.
  assert (Hchans : channel_list root = Ok []).
  { unfold channel_list.
    change p_channels with (p_frames ++ [sel_child "File"; sel_has_attr "channel"]).
    rewrite findall_app, Hnone. reflexivity. }
  split; [|split; [exact Hchans|]].
  - intros r Hr. apply get_pv_metadata_Ok in Hr as (root' & s & d & Hroot' & Hs & _ & _).
    assert (root' = root) as -> by congruence.
    apply read_scan_fields_Ok in Hs
      as (? & ? & ? & ? & ? & last_frame & ? & ? & _ & _ & _ & _ & _ & _ & Hlast & _).
    rewrite Hnone in Hlast. discriminate.
  - intros seq period line_period date Hseq Hperiod Hnz Hline Hdate.
    rewrite (get_pv_metadata_located _ _ _ Hroot). unfold read_scan_fields.
    rewrite Hseq. simpl. rewrite Hchans. simpl. rewrite Hperiod. simpl.
    unfold truediv. rewrite Hnz. simpl. rewrite Hline. simpl. rewrite Hdate. simpl.
    rewrite Hnone. reflexivity.
Qed.

Lemma no_frame_index_error_witness :
  sample_run doc_no_frames = Raise IndexError.
Proof.
  destruct (no_frame_index_error (H := sample_runtime)
              (folder [doc_other; doc_no_frames]) tif doc_no_frames eq_refl eq_refl)
    as (_ & _ & Hraise).
  exact (Hraise _ _ _ _ eq_refl eq_refl eq_refl eq_refl eq_refl).
Defined.

(** ** The depth part (lines 100-163) *)

(** X7.  When the scalar part has succeeded and the document is
    single-plane but holds no Z entry on the document-wide path, the call
    raises [AttributeError]. *)
Theorem single_plane_without_z_entry `{PyRuntime}
    (fs : FileSystem) (pvtiffile : string) (root : Element) (s : Locals.scan_fields) :
  locate fs pvtiffile = Ok root →
  read_scan_fields root = Ok s →
  find root p_frame_z = None →
  find root p_document_z = None →
  get_pv_metadata fs pvtiffile = Raise AttributeError.
Proof.
  intros Hroot Hs Hflat Hnone. rewrite (get_pv_metadata_located _ _ _ Hroot), Hs. simpl.
  unfold read_depth_fields. rewrite Hflat, Hnone. reflexivity.
Qed.

Lemma single_plane_without_z_entry_witness :
  sample_run doc_no_z_entry = Raise AttributeError.
Proof.
  exact (single_plane_without_z_entry (H := sample_runtime)
           (folder [doc_other; doc_no_z_entry]) tif doc_no_z_entry _
           eq_refl eq_refl eq_refl eq_refl).
Defined.

(** X8.  [bidirectional_z] of a returned record: in a single-plane document
    it is [False] whatever the document says; in a multi-plane document it
    is [True] exactly when the [bidirectionalZ] attribute of the first
    [Sequence] of the document (of whatever cycle) is the text ["True"],
    letter for letter. *)
Theorem bidirectional_z_flag `{PyRuntime}
    (fs : FileSystem) (pvtiffile : string) (root : Element) (r : metainfo) :
  locate fs pvtiffile = Ok root →
  get_pv_metadata fs pvtiffile = Ok r →
  (find root p_frame_z = None → bidirectional_z r = false)
  ∧ (find root p_frame_z ≠ None →
     ∃ seq, head (descendants "Sequence" root) = Some seq
       ∧ (bidirectional_z r = true ↔ get seq "bidirectionalZ" = Some "True")).
Proof.
  intros Hlocated Hr.
  apply get_pv_metadata_Ok in Hr as (root' & s & d & Hroot & _ & Hd & ->).
  assert (root' = root) as -> by congruence. simpl. split.
  - intros Hflat.
    apply (read_depth_fields_single_Ok _ _ Hflat) in Hd as (elem & z & _ & _ & ->).
    reflexivity.
  - intros Hframes. destruct (find root p_frame_z) as [zaxis|] eqn:Hz; [|done].
    apply (read_depth_fields_frames_Ok _ _ _ Hz) in Hd as (seq & pl & Hseq & _ & _ & Hbi & _).
    exists seq. split; [by rewrite <- findall_sequence|].
    rewrite Hbi. apply bool_decide_eq_true.
Qed.

(** The flag ["True"], the flag ["true"], and the flag ["True"] on a
    single-plane acquisition. *)
Lemma bidirectional_z_flag_witness :
  (∃ r, sample_run doc_bidirectional = Ok r ∧ bidirectional_z r = true)
  ∧ (∃ r, sample_run doc_bidirectional_lower = Ok r ∧ bidirectional_z r = false)
  ∧ (∃ r, sample_run doc_bidirectional_single = Ok r ∧ bidirectional_z r = false).
Proof.
  split; [|split]; (eexists; split; [vm_compute; reflexivity|]).
  - destruct (bidirectional_z_flag (H := sample_runtime)
                (folder [doc_other; doc_bidirectional]) tif doc_bidirectional _
                eq_refl eq_refl) as (_ & Hmulti).
    destruct Hmulti as (seq & Hseq & Hflag); [discriminate|].
    apply Hflag. vm_compute in Hseq. injection Hseq as <-. reflexivity.
  - destruct (bidirectional_z_flag (H := sample_runtime)
                (folder [doc_other; doc_bidirectional_lower]) tif doc_bidirectional_lower _
                eq_refl eq_refl) as (_ & Hmulti).
    destruct Hmulti as (seq & Hseq & Hflag); [discriminate|].
    apply not_true_is_false. intros Htrue. apply Hflag in Htrue.
    vm_compute in Hseq. injection Hseq as <-. vm_compute in Htrue. discriminate.
  - destruct (bidirectional_z_flag (H := sample_runtime)
                (folder [doc_other; doc_bidirectional_single]) tif doc_bidirectional_single _
                eq_refl eq_refl) as (Hsingle & _).
    exact (Hsingle eq_refl).
Defined.

(** X9.  In every returned record the number of Z positions is
    [num_planes]: a scalar [fieldZ] comes with [num_planes = 1], and a list
    [fieldZ], of texts or of floats, has [num_planes] elements. *)
Theorem fieldZ_has_num_planes_values `{PyRuntime}
    (fs : FileSystem) (pvtiffile : string) (r : metainfo) :
  get_pv_metadata fs pvtiffile = Ok r →
  match fieldZ r with
  | np_scalar _ => num_planes r = 1%nat
  | float_list l => length l = num_planes r
  | str_list l => length l = num_planes r
  end.
Proof.
  intros Hr. apply get_pv_metadata_Ok in Hr as (root & s & d & _ & _ & Hd & ->). simpl.
  destruct (find root p_frame_z) as [zaxis|] eqn:Hz.
  - apply (read_depth_fields_frames_Ok _ _ _ Hz) in Hd as (seq & pl & _ & _ & Hn & _ & Hlen & _).
    rewrite Hn. destruct (Locals.z_fields d); simpl in Hlen; congruence.
  - apply (read_depth_fields_single_Ok _ _ Hz) in Hd as (elem & z & _ & _ & ->). reflexivity.
Qed.

Lemma fieldZ_has_num_planes_values_witness :
  ∃ r l, sample_run doc_two_controllers = Ok r
    ∧ fieldZ r = float_list l ∧ length l = 3%nat ∧ num_planes r = 3%nat.
Proof.
  eexists. eexists. split; [vm_compute; reflexivity|]. split; [reflexivity|].
  split; [reflexivity|].
  pose proof (fieldZ_has_num_planes_values (H := sample_runtime)
                (folder [doc_other; doc_two_controllers]) tif _ eq_refl) as Hlen.
  symmetry. exact Hlen.
Defined.

(** ** Bounds on the counts *)

Lemma len_set_le (l : list Z) : (len_set l ≤ length l)%nat.
Proof.
  unfold len_set. induction l as [|x l IH]; [by rewrite list_to_set_nil, size_empty|].
  rewrite list_to_set_cons, size_union_alt, size_singleton. simpl.
  assert (Hsub : (list_to_set l ∖ {[x]} : gset Z) ⊆ list_to_set l)
    by (intros y Hy; by apply elem_of_difference in Hy as [Hy _]).
  apply subseteq_size in Hsub. lia.
Qed.

Lemma len_set_zero (l : list Z) : len_set l = 0%nat ↔ l = [].
Proof.
  unfold len_set. split; [|intros ->; by rewrite list_to_set_nil, size_empty].
  destruct l as [|x l]; [done|]. intros Hz. apply size_empty_inv in Hz.
  exfalso. set_solver.
Qed.

Lemma mapM_length {A B} (f : A → result B) (l : list A) (k : list B) :
  mapM f l = Ok k → length k = length l.
Proof. intros Hk. apply mapM_Ok in Hk. symmetry. by eapply Forall2_length. Qed.

Lemma length_bind_filter {A B} (P : A → Prop) `{∀ x, Decision (P x)}
    (f : A → list B) (l : list A) :
  (length (filter P l ≫= f) ≤ length (l ≫= f))%nat.
Proof.
  induction l as [|x l IH]; [done|].
  rewrite filter_cons. destruct (decide (P x)).
  - rewrite !bind_cons, !length_app. lia.
  - rewrite bind_cons, length_app. lia.
Qed.

Lemma cycle1_frames_le_frames (root : Element) :
  (length (findall root p_cycle1_frames) ≤ length (findall root p_frames))%nat.
Proof.
  change p_cycle1_frames with (p_sequence ++ [sel_attr_eq "cycle" "1"; sel_child "Frame"]).
  unfold p_frames. rewrite !findall_app.
  change (run_path [sel_attr_eq "cycle" "1"; sel_child "Frame"] (findall root p_sequence))
    with (filter (λ elem, get elem "cycle" = Some "1") (findall root p_sequence)
            ≫= λ elem, filter (λ e, tag e = "Frame") (children elem)).
  change (run_path [sel_child "Frame"] (findall root p_sequence))
    with (findall root p_sequence ≫= λ elem, filter (λ e, tag e = "Frame") (children elem)).
  apply length_bind_filter.
Qed.

Lemma frame_z_needs_frame (root : Element) :
  find root p_frame_z ≠ None → findall root p_cycle1_frames ≠ [].
Proof.
  intros Hz Hnil. apply Hz.
  change p_frame_z with
    (p_cycle1_frames ++ [sel_child "PVStateShard"; sel_child "PVStateValue"] ++ z_axis_tail).
  apply find_app_None, find_None, Hnil.
Qed.

(** X10.  In every returned record [1 <= num_planes <= num_frames], and
    [num_channels] is at most the number of [File] elements that carry a
    [channel] attribute; it is 0 exactly when no file carries one, which
    does not by itself make the call fail. *)
Theorem counts_are_bounded `{PyRuntime}
    (fs : FileSystem) (pvtiffile : string) (r : metainfo) :
  get_pv_metadata fs pvtiffile = Ok r →
  ∃ root,
    locate fs pvtiffile = Ok root
    ∧ (1 ≤ num_planes r ≤ num_frames r)%nat
    ∧ (num_channels r ≤ length (findall root p_channels))%nat
    ∧ (num_channels r = 0%nat ↔ findall root p_channels = []).
Proof.
  intros Hr. apply get_pv_metadata_Ok in Hr as (root & s & d & Hroot & Hs & Hd & ->).
  exists root. split; [exact Hroot|].
  apply read_scan_fields_Ok in Hs
    as (seq & chans & ? & ? & ? & last_frame & ? & ? & _ & Hchans & _ & _ & _ & _ & Hlast
        & _ & _ & _ & _ & _ & _ & ->).
  simpl. apply mapM_length in Hchans as Hlen.
  assert (Hframes : (0 < length (findall root p_frames))%nat)
    by (destruct (findall root p_frames); [discriminate | simpl; lia]).
  split; [|split].
  - destruct (find root p_frame_z) as [zaxis|] eqn:Hz.
    + apply (read_depth_fields_frames_Ok _ _ _ Hz) in Hd as (sq & pl & _ & Hpl & Hn & _).
      rewrite Hn. apply mapM_length in Hpl as Hpll.
      pose proof (len_set_le pl). pose proof (cycle1_frames_le_frames root).
      assert (len_set pl ≠ 0%nat).
      { rewrite len_set_zero. intros ->.
        apply (frame_z_needs_frame root); [congruence|].
        destruct (findall root p_cycle1_frames); [done | discriminate]. }
      lia.
    + apply (read_depth_fields_single_Ok _ _ Hz) in Hd as (elem & z & _ & _ & ->). simpl. lia.
  - rewrite <- Hlen. apply len_set_le.
  - rewrite len_set_zero. split.
    + intros ->. destruct (findall root p_channels); [done | discriminate].
    + intros Hnil. rewrite Hnil in Hlen. by destruct chans.
Qed.

(** Six frames in two cycles, three planes, one channel; and a record
    with no channel at all. *)
Lemma counts_are_bounded_witness :
  (∃ r, sample_run doc_one_controller = Ok r
     ∧ (1 ≤ num_planes r ≤ num_frames r)%nat
     ∧ num_planes r = 3%nat ∧ num_frames r = 6%nat ∧ num_channels r = 1%nat)
  ∧ (∃ r, sample_run doc_no_channel = Ok r ∧ num_channels r = 0%nat).
Proof.
  split; (eexists; split; [vm_compute; reflexivity|]).
  - destruct (counts_are_bounded (H := sample_runtime)
                (folder [doc_other; doc_one_controller]) tif _ eq_refl)
      as (root & _ & Hplanes & _).
    split; [exact Hplanes|]. repeat split; reflexivity.
  - destruct (counts_are_bounded (H := sample_runtime)
                (folder [doc_other; doc_no_channel]) tif _ eq_refl)
      as (root & Hroot & _ & _ & Hzero).
    apply Hzero. injection Hroot as <-. reflexivity.
Defined.

(** ** The choice between the two controller branches (lines 127-159) *)

Lemma filter_none {A} (P : A → Prop) `{∀ x, Decision (P x)} (l : list A) :
  (∀ x, x ∈ l → ¬ P x) → filter P l = [].
Proof.
  induction l as [|x l IH]; intros Hnot; [done|].
  rewrite filter_cons, decide_False by (apply Hnot; left).
  apply IH. intros y Hy. apply Hnot. by right.
Qed.

(** X11.  The controller entries are looked up at the frames whose [index]
    attribute is the text ["1"].  In a multi-plane document where no frame
    of cycle 1 has that text (indices written ["01"], or counted from 0),
    no entry is found, the several-controller branch is not taken however
    many controllers each frame lists, and [fieldZ] of a returned record is
    the list of the [value] texts of the entries with subindex 0. *)
Theorem frame_index_is_matched_as_text `{PyRuntime}
    (fs : FileSystem) (pvtiffile : string) (root zaxis : Element) :
  locate fs pvtiffile = Ok root →
  find root p_frame_z = Some zaxis →
  (∀ frame, frame ∈ findall root p_cycle1_frames → get frame "index" ≠ Some "1") →
  findall root p_z_controllers = []
  ∧ (∀ r, get_pv_metadata fs pvtiffile = Ok r →
       fieldZ r = str_list ((λ z, get z "value") <$> findall root (p_subindex "0"))).
Proof.
  intros Hlocated Hz Hindex.
  assert (Hnone : findall root p_z_controllers = []).
  { assert (Hfirst : findall root (p_cycle1_frames ++ [sel_attr_eq "index" "1"]) = []).
    { rewrite findall_app.
      change (filter (λ elem, get elem "index" = Some "1") (findall root p_cycle1_frames) = []).
      by apply filter_none. }
    change p_z_controllers with
      ((p_cycle1_frames ++ [sel_attr_eq "index" "1"])
         ++ [sel_child "PVStateShard"; sel_child "PVStateValue"] ++ z_axis_tail
         ++ [sel_child "SubindexedValue"]).
    rewrite findall_app, Hfirst. apply run_path_nil. }
  split; [exact Hnone|]. intros r Hr.
  apply get_pv_metadata_Ok in Hr as (root' & s & d & Hroot & _ & Hd & ->).
  assert (root' = root) as -> by congruence.
  apply (read_depth_fields_frames_Ok _ _ _ Hz) in Hd as (seq & pl & _ & _ & _ & _ & _ & Hfield).
  rewrite Hnone, (bool_decide_false (1 < 0)%nat) in Hfield by (simpl; lia).
  injection Hfield as Hfield. simpl. rewrite <- Hfield. reflexivity.
Qed.

(** Frame indices 01, 02, 03 with two controllers each: the values of
    controller 0, which stays, are returned as texts. *)
Lemma frame_index_is_matched_as_text_witness :
  ∃ r, sample_run doc_padded_indices = Ok r
    ∧ fieldZ r = str_list [Some "75"; Some "75"; Some "75"].
Proof.
  eexists. split; [vm_compute; reflexivity|].
  destruct (frame_index_is_matched_as_text (H := sample_runtime)
              (folder [doc_other; doc_padded_indices]) tif doc_padded_indices _
              eq_refl eq_refl) as (_ & Hfield).
  - intros frame Hframe. vm_compute in Hframe.
    repeat (apply elem_of_cons in Hframe as [->|Hframe]; [discriminate|]).
    by apply elem_of_nil in Hframe.
  - exact (Hfield _ eq_refl).
Defined.

(** ** The candidates of the several-controller branch (lines 132-151) *)

(** X12.  One candidate list is collected per child of the Z node of frame
    index 1, not per distinct subindex: two children with the same
    [subindex] attribute get the same list, and when that list varies they
    count as two varying controllers, so the call raises the disambiguation
    assertion. *)
Theorem repeated_subindex_counts_twice `{PyRuntime}
    (fs : FileSystem) (pvtiffile : string) (root zaxis : Element)
    (s : Locals.scan_fields) (pl : list Z) (zr : list (list float))
    (i j : nat) (c1 c2 : Element) :
  locate fs pvtiffile = Ok root →
  find root p_frame_z = Some zaxis →
  (1 < length (findall root p_z_controllers))%nat →
  read_scan_fields root = Ok s →
  planes root = Ok pl →
  z_repeats root = Ok zr →
  findall root p_z_controller_children !! i = Some c1 →
  findall root p_z_controller_children !! j = Some c2 →
  i ≠ j →
  get c1 "subindex" = get c2 "subindex" →
  length zr = length (findall root p_z_controller_children)
  ∧ zr !! i = zr !! j
  ∧ (∀ zc, zr !! i = Some zc → varies zc = true →
       get_pv_metadata fs pvtiffile
       = Raise (AssertionError "Multiple controllers changing z depth is not supported")).
Proof.
  intros Hlocated Hz Hmany Hs Hpl Hzr Hi Hj Hij Hsame.
  pose proof Hzr as HF. unfold z_repeats in HF. apply mapM_Ok in HF.
  destruct (Forall2_lookup_l _ _ _ _ _ HF Hi) as (zi & Hzi & Hci).
  destruct (Forall2_lookup_l _ _ _ _ _ HF Hj) as (zj & Hzj & Hcj).
  cbv beta in Hci, Hcj. rewrite Hsame in Hci.
  assert (zi = zj) as <- by congruence.
  split; [symmetry; by eapply Forall2_length|]. split; [congruence|].
  intros zc Hzc Hv. assert (zc = zi) as -> by congruence.
  assert (Hother : sum (varies <$> zr) ≠ 1%nat).
  { intros Hone. destruct (sum_one _ Hone) as (k & _ & _ & Huniq).
    assert (i = k) by (apply Huniq; rewrite list_lookup_fmap, Hzi; simpl; by rewrite Hv).
    assert (j = k) by (apply Huniq; rewrite list_lookup_fmap, Hzj; simpl; by rewrite Hv).
    congruence. }
  destruct (find_sequence_of_frame_z root) as [seq Hseq]; [congruence|].
  rewrite (get_pv_metadata_located _ _ _ Hlocated), Hs. simpl.
  rewrite (read_depth_fields_frames _ _ _ _ Hz Hseq Hpl).
  rewrite (bool_decide_true (1 < _)%nat) by exact Hmany.
  rewrite (several_controllers_other _ _ Hzr Hother). reflexivity.
Qed.

(** Two entries with subindex 0 under each Z node, moving from 10 to 20. *)
Lemma repeated_subindex_counts_twice_witness :
  @z_repeats sample_runtime doc_duplicate_subindex
  = Ok [[10; 10; 20; 20]; [10; 10; 20; 20]]%float
  ∧ sample_run doc_duplicate_subindex
    = Raise (AssertionError "Multiple controllers changing z depth is not supported").
Proof.
  split; [vm_compute; reflexivity|].
  destruct (repeated_subindex_counts_twice (H := sample_runtime)
              (folder [doc_other; doc_duplicate_subindex]) tif doc_duplicate_subindex
              _ _ _ _ 0%nat 1%nat _ _
              eq_refl eq_refl ltac:(vm_compute; lia) eq_refl eq_refl eq_refl
              eq_refl eq_refl ltac:(lia) eq_refl)
    as (_ & _ & Hraise).
  apply (Hraise [10; 10; 20; 20]%float); vm_compute; reflexivity.
Defined.

(** X13.  A controller whose collected list holds a NaN counts as varying,
    whatever the other values and even when it is the only value: NaN is
    equal to nothing, itself included. *)
Theorem nan_value_varies (z_controller : list float) (z : float) :
  z ∈ z_controller → is_nan z = true → controller_varies z_controller = Ok true.
Proof.
  intros Hin Hnan. rewrite controller_varies_eq. f_equal.
  apply varies_spec. exists z, z. repeat split; try exact Hin.
  unfold is_nan in Hnan. by apply negb_true_iff in Hnan.
Qed.

(** A controller that stays at 75 and one that reports ["nan"] twice: the
    second is taken as the moving one. *)
Lemma nan_value_varies_witness :
  controller_varies [nan; nan] = Ok true
  ∧ ∃ r, sample_run doc_nan_controller = Ok r ∧ fieldZ r = float_list [nan; nan].
Proof.
  split.
  - apply (nan_value_varies [nan; nan] nan); [left | reflexivity].
  - eexists. split; vm_compute; reflexivity.
Defined.
